(** * WDSR data pipeline: dataset preparation and prefetching (dataset.py)

    A shallow embedding of [dataset.py]: the bounded queue and worker thread
    of [PrefetchGenerator], the [CPUPrefetcher] and [CUDAPrefetcher]
    wrappers, and the two dataset classes, followed by the properties stated
    about them. *)

From Stdlib Require Import List ZArith Lia Bool QArith Qround Ascii String.
Import ListNotations.
Open Scope Z_scope.

(* ===================================================================== *)
(** ** Python's iterator protocol *)
(* ===================================================================== *)

Module Py.

(** What a call [next(it)] can do, seen from the calling thread: return an
    item, raise [StopIteration], or never return. *)
Inductive outcome (S B : Type) : Type :=
| Yield (b : B) (s : S)
| StopIteration (s : S)
| Blocks.
Arguments Yield {S B} b s.
Arguments StopIteration {S B} s.
Arguments Blocks {S B}.

(** [next(it)] on an iterator whose state has type [S]. *)
Class Iterator (S B : Type) := py_next : S -> outcome S B.

(** [iter(dataloader)]. *)
Class Iterable (L S : Type) := py_iter : L -> S.

(** Successive calls of [next(it)] that return: each hands over an item, or
    [None] where it raised [StopIteration]. *)
Inductive pulls {S B : Type} `{Iterator S B} : S -> list (option B) -> S -> Prop :=
| pulls_nil s : pulls s [] s
| pulls_yield s b s1 rs s' :
    py_next s = Yield b s1 -> pulls s1 rs s' -> pulls s (Some b :: rs) s'
| pulls_stop s s1 rs s' :
    py_next s = StopIteration s1 -> pulls s1 rs s' -> pulls s (None :: rs) s'.

End Py.

(* ===================================================================== *)
(** ** queue.Queue and PrefetchGenerator *)
(* ===================================================================== *)

Module PrefetchGenerator.

(** An item handed over by the generator: a Python object, which may be
    [None]. *)
Definition item (A : Type) : Type := option A.

(** [queue.Queue(maxsize)]: a FIFO buffer, unbounded when [maxsize <= 0]. *)
Record pyqueue (A : Type) : Type := mkQueue {
  maxsize : Z;
  items : list (item A)
}.
Arguments mkQueue {A} maxsize items.
Arguments maxsize {A} p.
Arguments items {A} p.

Definition full {A} (q : pyqueue A) : bool :=
  (0 <? maxsize q) && (maxsize q <=? Z.of_nat (List.length (items q))).

(** [queue.put(x)]: [None] while the call has to wait for a free slot. *)
Definition put {A} (q : pyqueue A) (x : item A) : option (pyqueue A) :=
  if full q then None else Some (mkQueue (maxsize q) (items q ++ [x])).

(** [queue.get()]: [None] while the call has to wait for an item. *)
Definition get {A} (q : pyqueue A) : option (item A * pyqueue A) :=
  match items q with
  | [] => None
  | x :: rest => Some (x, mkQueue (maxsize q) rest)
  end.

(** Where the worker thread stands in [run]. *)
Inductive run_pc (A : Type) : Type :=
| RunLoop                (* at the head of [for item in self.generator] *)
| RunPut (x : item A)    (* about to call [self.queue.put(item)] *)
| RunPutNone             (* about to call [self.queue.put(None)] *)
| RunDone.               (* [run] has returned *)
Arguments RunLoop {A}.
Arguments RunPut {A} x.
Arguments RunPutNone {A}.
Arguments RunDone {A}.

(** A started [PrefetchGenerator]: the rest of the generator, the worker
    thread and the queue. *)
Record t (A : Type) : Type := mkGen {
  generator : list (item A);
  pc : run_pc A;
  queue : pyqueue A
}.
Arguments mkGen {A} generator pc queue.
Arguments generator {A} t.
Arguments pc {A} t.
Arguments queue {A} t.

(** [__init__]: the queue is created and the thread is started. *)
Definition init {A} (gen : list (item A)) (num_data_prefetch_queue : Z) : t A :=
  mkGen gen RunLoop (mkQueue num_data_prefetch_queue []).

(** One atomic action of the worker thread in [run]; [None] when the thread
    is waiting in [put] or has finished. *)
Definition run_step {A} (s : t A) : option (t A) :=
  match pc s with
  | RunLoop =>
      match generator s with
      | x :: g => Some (mkGen g (RunPut x) (queue s))
      | [] => Some (mkGen [] RunPutNone (queue s))
      end
  | RunPut x =>
      match put (queue s) x with
      | Some q => Some (mkGen (generator s) RunLoop q)
      | None => None
      end
  | RunPutNone =>
      match put (queue s) None with
      | Some q => Some (mkGen (generator s) RunDone q)
      | None => None
      end
  | RunDone => None
  end.

(** How a call of [__next__] ends once [queue.get()] has returned. *)
Inductive next_result (A : Type) : Type :=
| Return (a : A)
| Stop.
Arguments Return {A} a.
Arguments Stop {A}.

(** [__next__] at the moment [queue.get()] can return; [None] while the
    caller waits on the empty queue. *)
Definition next_step {A} (s : t A) : option (next_result A * t A) :=
  match get (queue s) with
  | None => None
  | Some (Some a, q) => Some (Return a, mkGen (generator s) (pc s) q)
  | Some (None, q) => Some (Stop, mkGen (generator s) (pc s) q)
  end.

(** A call of [__next__] under any interleaving: the worker acts any number
    of times until the caller's [queue.get()] returns. *)
Inductive next_call {A} : t A -> next_result A -> t A -> Prop :=
| next_now s r s' :
    next_step s = Some (r, s') -> next_call s r s'
| next_wait s s1 r s' :
    run_step s = Some s1 -> next_call s1 r s' -> next_call s r s'.

(** The same call as a function: the worker is let run only while the
    caller waits.  On an empty queue two worker actions at most put the next
    item. *)
Fixpoint next_within {A} (fuel : nat) (s : t A) : Py.outcome (t A) A :=
  match next_step s with
  | Some (Return a, s') => Py.Yield a s'
  | Some (Stop, s') => Py.StopIteration s'
  | None =>
      match fuel with
      | O => Py.Blocks
      | S fuel' =>
          match run_step s with
          | Some s1 => next_within fuel' s1
          | None => Py.Blocks
          end
      end
  end.

Definition next {A} (s : t A) : Py.outcome (t A) A := next_within 2 s.

#[global] Instance iterator {A} : Py.Iterator (t A) A := next.

(** The items still to reach the consumer, in order: the queue, then what
    the worker holds, then what the generator and the sentinel will give. *)
Definition stream {A} (s : t A) : list (item A) :=
  items (queue s) ++
  match pc s with
  | RunLoop => generator s ++ [None]
  | RunPut x => x :: generator s ++ [None]
  | RunPutNone => [None]
  | RunDone => []
  end.

(** The consumer [for x in prefetch_generator: out.append(x)] running next
    to the worker. *)
Record drain (A : Type) : Type := mkDrain {
  sys : t A;
  out : list A;
  stopped : bool
}.
Arguments mkDrain {A} sys out stopped.
Arguments sys {A} d.
Arguments out {A} d.
Arguments stopped {A} d.

Definition start {A} (gen : list (item A)) (n : Z) : drain A :=
  mkDrain (init gen n) [] false.

Definition consume {A} (d : drain A) (r : next_result A) (s' : t A) : drain A :=
  match r with
  | Return a => mkDrain s' (out d ++ [a]) false
  | Stop => mkDrain s' (out d) true
  end.

Inductive step {A} : drain A -> drain A -> Prop :=
| step_worker d s' :
    run_step (sys d) = Some s' ->
    step d (mkDrain s' (out d) (stopped d))
| step_consumer d r s' :
    stopped d = false ->
    next_step (sys d) = Some (r, s') ->
    step d (consume d r s').

(** [steps n d d']: some interleaving takes [d] to [d'] in [n] actions. *)
Inductive steps {A} : nat -> drain A -> drain A -> Prop :=
| steps_refl d : steps O d d
| steps_cons n d1 d2 d3 : step d1 d2 -> steps n d2 d3 -> steps (S n) d1 d3.

(** Running a given schedule; an actor that cannot act is skipped. *)
Inductive actor : Type := Worker | Consumer.

Definition act {A} (a : actor) (d : drain A) : drain A :=
  match a with
  | Worker =>
      match run_step (sys d) with
      | Some s' => mkDrain s' (out d) (stopped d)
      | None => d
      end
  | Consumer =>
      if stopped d then d
      else match next_step (sys d) with
           | Some (r, s') => consume d r s'
           | None => d
           end
  end.

Definition exec {A} (sched : list actor) (d : drain A) : drain A :=
  fold_left (fun d a => act a d) sched d.

(** What the consumer has taken out of the queue so far. *)
Definition consumed {A} (d : drain A) : list (item A) :=
  map Some (out d) ++ (if stopped d then [None] else []).

(** The longest prefix of a sequence that holds no [None]. *)
Fixpoint none_free_prefix {A} (l : list (item A)) : list A :=
  match l with
  | Some a :: l' => a :: none_free_prefix l'
  | _ => []
  end.

Definition pc_weight {A} (p : run_pc A) : nat :=
  match p with
  | RunLoop => 3
  | RunPut _ => 5
  | RunPutNone => 2
  | RunDone => 0
  end.

(** A bound on the number of actions still possible. *)
Definition budget {A} (d : drain A) : nat :=
  3 * List.length (generator (sys d)) + pc_weight (pc (sys d))
  + List.length (items (queue (sys d))).

(** A bounded queue holds no more items than its capacity. *)
Definition within_capacity {A} (q : pyqueue A) : Prop :=
  0 < maxsize q -> Z.of_nat (List.length (items q)) <= maxsize q.

(** The item [queue.get()] handed over in a call that ended with [r]. *)
Definition item_of {A} (r : next_result A) : item A :=
  match r with
  | Return a => Some a
  | Stop => None
  end.

(** Successive calls of [__next__] by one consumer, under any
    interleaving with the worker. *)
Inductive calls {A} : t A -> list (next_result A) -> t A -> Prop :=
| calls_nil s : calls s [] s
| calls_cons s r s1 rs s' :
    next_call s r s1 -> calls s1 rs s' -> calls s (r :: rs) s'.

(** The worker thread running with no consumer: up to [fuel] actions of
    [run], stopping where the thread waits in [put] or has finished. *)
Fixpoint worker_runs {A} (fuel : nat) (s : t A) : t A :=
  match fuel with
  | O => s
  | S fuel' =>
      match run_step s with
      | Some s' => worker_runs fuel' s'
      | None => s
      end
  end.

(** Where the worker stands after fetching from a generator that still held
    [g] at position [c]. *)
Definition holding {A} (g : list (item A)) (c : nat) : run_pc A :=
  match nth_error g c with
  | Some x => RunPut x
  | None => RunPutNone
  end.

End PrefetchGenerator.

(* ===================================================================== *)
(** ** Data loaders *)
(* ===================================================================== *)

(** A [DataLoader] over a fixed, non-random source: the sequence of its
    batches, each collated anew at every iteration.  Its own iterator walks
    the sequence and, once exhausted, raises [StopIteration] at every further
    call. *)
Module DataLoader.

Definition t (B : Type) : Type := list B.

#[global] Instance iterable {B} : Py.Iterable (t B) (list B) :=
  fun dl => dl.

#[global] Instance iterator {B} : Py.Iterator (list B) B :=
  fun s =>
    match s with
    | b :: rest => Py.Yield b rest
    | [] => Py.StopIteration []
    end.

Definition len {B} (dl : t B) : nat := List.length dl.

End DataLoader.

Module PrefetchDataLoader.

(** [batches] is what [super().__iter__()] yields. *)
Record t (A : Type) : Type := mkLoader {
  num_data_prefetch_queue : Z;
  batches : list (PrefetchGenerator.item A)
}.
Arguments mkLoader {A} num_data_prefetch_queue batches.
Arguments num_data_prefetch_queue {A} t.
Arguments batches {A} t.

(** [__iter__]: a new generator, with its own thread and queue. *)
#[global] Instance iterable {A} : Py.Iterable (t A) (PrefetchGenerator.t A) :=
  fun dl => PrefetchGenerator.init (batches dl) (num_data_prefetch_queue dl).

End PrefetchDataLoader.

(* ===================================================================== *)
(** ** CPUPrefetcher *)
(* ===================================================================== *)

Module CPUPrefetcher.
Section Defs.
Context {L St B : Type} `{Py.Iterable L St} `{Py.Iterator St B}.

Record t : Type := mk {
  original_dataloader : L;
  data : St
}.

Definition init (dataloader : L) : t :=
  mk dataloader (Py.py_iter dataloader).

(** [next]: the item, or [None] on [StopIteration]; the outer [None] is a
    call that never returns. *)
Definition next (p : t) : option (option B * t) :=
  match Py.py_next (data p) with
  | Py.Yield b s => Some (Some b, mk (original_dataloader p) s)
  | Py.StopIteration s => Some (None, mk (original_dataloader p) s)
  | Py.Blocks => None
  end.

Definition reset (p : t) : t :=
  mk (original_dataloader p) (Py.py_iter (original_dataloader p)).

(** [n] calls of [next] in a row, with what each returned. *)
Fixpoint nexts (n : nat) (p : t) : option (list (option B) * t) :=
  match n with
  | O => Some ([], p)
  | S n' =>
      match next p with
      | None => None
      | Some (r, p') =>
          match nexts n' p' with
          | None => None
          | Some (rs, p'') => Some (r :: rs, p'')
          end
      end
  end.

(** The caller's loop [b = next(); while b is not None: ...; b = next()].
    [None] when the fuel runs out or a call never returns. *)
Fixpoint drain (fuel : nat) (p : t) : option (list B * t) :=
  match fuel with
  | O => None
  | S fuel' =>
      match next p with
      | None => None
      | Some (None, p') => Some ([], p')
      | Some (Some b, p') =>
          match drain fuel' p' with
          | None => None
          | Some (bs, p'') => Some (b :: bs, p'')
          end
      end
  end.

End Defs.
Arguments t L St : clear implicits.
End CPUPrefetcher.

(* ===================================================================== *)
(** ** CUDAPrefetcher *)
(* ===================================================================== *)

Module CUDAPrefetcher.
Section Defs.
Context {L St B : Type} `{Py.Iterable L St} `{Py.Iterator St B}.

(** [device] stands for [self.device]: what moving every tensor of a batch
    with [.to(self.device, non_blocking=True)] makes of the batch.  The copy
    stream and [wait_stream] order the transfer in time and change no
    value; they are left out. *)
Record t : Type := mk {
  batch_data : option B;
  original_dataloader : L;
  device : B -> B;
  data : St
}.

(** [preload]: one [next(self.data)]; the new batch is staged on the
    device, or [None] is stored on [StopIteration]. *)
Definition preload (p : t) : option t :=
  match Py.py_next (data p) with
  | Py.Yield b s =>
      Some (mk (Some (device p b)) (original_dataloader p) (device p) s)
  | Py.StopIteration s =>
      Some (mk None (original_dataloader p) (device p) s)
  | Py.Blocks => None
  end.

Definition init (dataloader : L) (dev : B -> B) : option t :=
  preload (mk None dataloader dev (Py.py_iter dataloader)).

Definition next (p : t) : option (option B * t) :=
  let batch := batch_data p in
  match preload p with
  | Some p' => Some (batch, p')
  | None => None
  end.

Definition reset (p : t) : option t :=
  preload (mk (batch_data p) (original_dataloader p) (device p)
              (Py.py_iter (original_dataloader p))).

Inductive call : Type := Next | Reset.

Inductive event : Type :=
| Returned (r : option B)
| WasReset.

(** A sequence of calls, with its trace. *)
Fixpoint run (p : t) (cs : list call) : option (list event * t) :=
  match cs with
  | [] => Some ([], p)
  | Next :: cs' =>
      match next p with
      | None => None
      | Some (r, p') =>
          match run p' cs' with
          | None => None
          | Some (tr, p'') => Some (Returned r :: tr, p'')
          end
      end
  | Reset :: cs' =>
      match reset p with
      | None => None
      | Some p' =>
          match run p' cs' with
          | None => None
          | Some (tr, p'') => Some (WasReset :: tr, p'')
          end
      end
  end.

(** The batches handed to the caller since the last [reset] of a trace;
    [acc] holds those handed out before the trace began. *)
Fixpoint since_reset (tr : list event) (acc : list B) : list B :=
  match tr with
  | [] => acc
  | Returned (Some b) :: tr' => since_reset tr' (acc ++ [b])
  | Returned None :: tr' => since_reset tr' acc
  | WasReset :: tr' => since_reset tr' []
  end.

(** What the calls of [next] of a trace returned since its last [reset],
    [None] included; [acc] holds what was returned before the trace began. *)
Fixpoint results_since_reset (tr : list event) (acc : list (option B))
  : list (option B) :=
  match tr with
  | [] => acc
  | Returned r :: tr' => results_since_reset tr' (acc ++ [r])
  | WasReset :: tr' => results_since_reset tr' []
  end.

Fixpoint nexts (n : nat) (p : t) : option (list (option B) * t) :=
  match n with
  | O => Some ([], p)
  | S n' =>
      match next p with
      | None => None
      | Some (r, p') =>
          match nexts n' p' with
          | None => None
          | Some (rs, p'') => Some (r :: rs, p'')
          end
      end
  end.

Fixpoint drain (fuel : nat) (p : t) : option (list B * t) :=
  match fuel with
  | O => None
  | S fuel' =>
      match next p with
      | None => None
      | Some (None, p') => Some ([], p')
      | Some (Some b, p') =>
          match drain fuel' p' with
          | None => None
          | Some (bs, p'') => Some (b :: bs, p'')
          end
      end
  end.

End Defs.
Arguments t L St B : clear implicits.
End CUDAPrefetcher.

(** The state of a [CUDAPrefetcher] over a plain [DataLoader]: the batches
    of the loader split into those [handed] out since the last restart and
    those [upcoming]; the first upcoming batch is the staged one, the others
    are still in the loader's iterator. *)
Module Lookahead.

Definition holds {B} (dl : DataLoader.t B) (dev : B -> B)
    (handed upcoming : list B)
    (p : CUDAPrefetcher.t (DataLoader.t B) (list B) B) : Prop :=
  dl = handed ++ upcoming /\
  CUDAPrefetcher.batch_data p = option_map dev (hd_error upcoming) /\
  CUDAPrefetcher.data p = tl upcoming /\
  CUDAPrefetcher.original_dataloader p = dl /\
  CUDAPrefetcher.device p = dev.

End Lookahead.

(* ===================================================================== *)
(** ** Exceptions and effects of the dataset code *)
(* ===================================================================== *)

Module Exn.

(** The exceptions the dataset code can meet.  [CropTooLarge] and
    [InvalidScaleFactor] are the errors the specification names. *)
Inductive t : Type :=
| IndexError
| ValueError (msg : string)
| ZeroDivisionError
| AttributeError
| FileNotFoundError
| CropTooLarge
| InvalidScaleFactor.

End Exn.

Module Eff.
Section Defs.
Context {rng image : Type}.

(** What the dataset code reads and writes besides its arguments: the
    state of Python's random generator and what was printed. *)
Record world : Type := mkWorld {
  rand : rng;
  stdout : list (Z * image)
}.

Definition M (X : Type) : Type := world -> (Exn.t + X) * world.

Definition ret {X} (x : X) : M X := fun w => (inr x, w).

Definition bind {X Y} (c : M X) (k : X -> M Y) : M Y :=
  fun w =>
    match c w with
    | (inl e, w') => (inl e, w')
    | (inr x, w') => k x w'
    end.

Definition raise {X} (e : Exn.t) : M X := fun w => (inl e, w).

Definition lift {X} (r : Exn.t + X) : M X := fun w => (r, w).

(** [try: c  except Exception as e: h e]. *)
Definition try_except {X} (c : M X) (h : Exn.t -> M X) : M X :=
  fun w =>
    match c w with
    | (inl e, w') => h e w'
    | (inr x, w') => (inr x, w')
    end.

(** [print(batch_index, image)]. *)
Definition print (i : Z) (img : image) : M unit :=
  fun w => (inr tt, mkWorld (rand w) (stdout w ++ [(i, img)])).

End Defs.
Arguments world rng image : clear implicits.
Arguments M rng image X : clear implicits.
End Eff.

Notation "x <- c ;; k" := (Eff.bind c (fun x => k))
  (at level 61, c at next level, right associativity).
Notation "' p <- c ;; k" := (Eff.bind c (fun x => let p := x in k))
  (at level 61, p pattern, c at next level, right associativity).

(** [imgproc], which [dataset.py] imports: taken as given. *)
Class Imgproc (rng image tensor : Type) : Type := {
  random_crop : image -> image -> Z -> Eff.M rng image (image * image);
  random_rotate : image -> image -> list Z -> Eff.M rng image (image * image);
  random_horizontally_flip : image -> image -> Q -> Eff.M rng image (image * image);
  random_vertically_flip : image -> image -> Q -> Eff.M rng image (image * image);
  center_crop : image -> image -> Z -> Eff.M rng image (image * image);
  image2tensor : image -> bool -> bool -> Eff.M rng image tensor;
  imresize : image -> Q -> Eff.M rng image image;
  bgr2ycbcr : image -> bool -> Eff.M rng image image
}.

(** The file system and [cv2.imread]: [imread] is [None] for a file that
    cannot be decoded; [unit_float] is [.astype(np.float32) / 255.]. *)
Class Files (image : Type) : Type := {
  listdir : string -> option (list string);
  imread : string -> option image;
  unit_float : image -> image
}.

Module PyList.

(** [l[i]] on a Python list: negative indices count from the end. *)
Definition index {X} (l : list X) (i : Z) : Exn.t + X :=
  let n := Z.of_nat (List.length l) in
  let j := if i <? 0 then n + i else i in
  if (0 <=? j) && (j <? n) then
    match nth_error l (Z.to_nat j) with
    | Some x => inr x
    | None => inl Exn.IndexError
    end
  else inl Exn.IndexError.

(** [path.endswith("/")]. *)
Fixpoint ends_with_sep (path : string) : bool :=
  match path with
  | EmptyString => false
  | String c EmptyString => Ascii.eqb c "/"%char
  | String _ rest => ends_with_sep rest
  end.

(** [os.path.join(dir, name)] as [posixpath] has it: an absolute [name]
    replaces [dir]; after an empty [dir] or one that ends with a separator
    [name] is appended as it is; otherwise a separator comes between. *)
Definition path_join (dir name : string) : string :=
  if String.prefix "/"%string name then name
  else if (dir =? "")%string || ends_with_sep dir then (dir ++ name)%string
  else (dir ++ "/" ++ name)%string.

End PyList.

(* ===================================================================== *)
(** ** TrainValidImageDataset *)
(* ===================================================================== *)

Module TrainValidImageDataset.
Section Defs.
Context {rng image tensor : Type} `{Imgproc rng image tensor}.

Record t : Type := mk {
  lr_image_file_names : list string;
  hr_image_file_names : list string;
  image_size : Z;
  mode : string;
  lr_datasets : list image;
  hr_datasets : list image
}.

(** The dictionary [{"lr": ..., "hr": ...}]. *)
Record sample : Type := mkSample {
  lr : tensor;
  hr : tensor
}.

Definition getitem (self : t) (batch_index : Z) : Eff.M rng image sample :=
  lr_y_image <- Eff.lift (PyList.index (lr_datasets self) batch_index) ;;
  hr_y_image <- Eff.lift (PyList.index (hr_datasets self) batch_index) ;;
  '(lr_y_image, hr_y_image) <-
    (if (mode self =? "Train")%string then
       '(lr1, hr1) <-
         Eff.try_except
           (random_crop lr_y_image hr_y_image (image_size self))
           (fun e => _ <- Eff.print batch_index lr_y_image ;;
                     Eff.ret (lr_y_image, hr_y_image)) ;;
       '(lr2, hr2) <- random_rotate lr1 hr1 [0; 90; 180; 270] ;;
       '(lr3, hr3) <- random_horizontally_flip lr2 hr2 (1 # 2) ;;
       random_vertically_flip lr3 hr3 (1 # 2)
     else if (mode self =? "Valid")%string then
       center_crop lr_y_image hr_y_image (image_size self)
     else
       Eff.raise (Exn.ValueError
         "Unsupported data processing model, please use `Train` or `Valid`.")) ;;
  lr_y_tensor <- image2tensor lr_y_image false false ;;
  hr_y_tensor <- image2tensor hr_y_image false false ;;
  Eff.ret (mkSample lr_y_tensor hr_y_tensor).

Definition len (self : t) : nat := List.length (lr_image_file_names self).

(** Lines 71 to 84 of [__getitem__] run on a pair that was not cropped. *)
Definition uncropped_train_sample (lr_y_image hr_y_image : image)
  : Eff.M rng image sample :=
  '(lr2, hr2) <- random_rotate lr_y_image hr_y_image [0; 90; 180; 270] ;;
  '(lr3, hr3) <- random_horizontally_flip lr2 hr2 (1 # 2) ;;
  '(lr4, hr4) <- random_vertically_flip lr3 hr3 (1 # 2) ;;
  lr_y_tensor <- image2tensor lr4 false false ;;
  hr_y_tensor <- image2tensor hr4 false false ;;
  Eff.ret (mkSample lr_y_tensor hr_y_tensor).

End Defs.
Arguments t image : clear implicits.
Arguments sample tensor : clear implicits.

Section Construction.
Context {rng image tensor : Type} `{Imgproc rng image tensor} `{Files image}.

(** One of the two loops of [read_image_to_memory]: every file is read,
    scaled to [0, 1], reduced to its Y channel and appended.  The progress
    bar and the switching of the garbage collector change no value and are
    left out. *)
Fixpoint read_y_images (names : list string) (datasets : list image)
  : Eff.M rng image (list image) :=
  match names with
  | [] => Eff.ret datasets
  | image_file_name :: rest =>
      raw <- Eff.lift (match imread image_file_name with
                       | Some a => inr a
                       | None => inl Exn.AttributeError
                       end) ;;
      y_image <- bgr2ycbcr (unit_float raw) true ;;
      read_y_images rest (datasets ++ [y_image])
  end.

(** [read_image_to_memory]: the low-resolution files, then the
    high-resolution files. *)
Definition read_image_to_memory (self : t image) : Eff.M rng image (t image) :=
  lrs <- read_y_images (lr_image_file_names self) (lr_datasets self) ;;
  hrs <- read_y_images (hr_image_file_names self) (hr_datasets self) ;;
  Eff.ret (mk (lr_image_file_names self) (hr_image_file_names self)
              (image_size self) (mode self) lrs hrs).

Definition init (image_dir : string) (image_size : Z) (mode : string)
  : Eff.M rng image (t image) :=
  lr_names <- Eff.lift (match listdir (PyList.path_join image_dir "lr") with
                        | Some l => inr l
                        | None => inl Exn.FileNotFoundError
                        end) ;;
  hr_names <- Eff.lift (match listdir (PyList.path_join image_dir "hr") with
                        | Some l => inr l
                        | None => inl Exn.FileNotFoundError
                        end) ;;
  read_image_to_memory
    (mk (map (PyList.path_join (PyList.path_join image_dir "lr")) lr_names)
        (map (PyList.path_join (PyList.path_join image_dir "hr")) hr_names)
        image_size mode [] []).

End Construction.
End TrainValidImageDataset.

(* ===================================================================== *)
(** ** TestImageDataset *)
(* ===================================================================== *)

Module TestImageDataset.
Section Defs.
Context {rng image tensor : Type} `{Imgproc rng image tensor} `{Files image}.

Record t : Type := mk {
  image_file_names : list string;
  upscale_factor : Z;
  lr_datasets : list tensor;
  hr_datasets : list tensor
}.

(** The integer nearest to [n / d] for [d > 0], a tie going to the even
    one. *)
Definition round_half_even (n d : Z) : Z :=
  let q := n / d in
  let r := n mod d in
  if 2 * r <? d then q
  else if d <? 2 * r then q + 1
  else if Z.even q then q else q + 1.

(** The float that Python's true division of the integers [1] and [z]
    gives, as the rational number it denotes: the quotient correctly rounded
    to a 53-bit significand (to nearest, ties to even), with the spacing
    [2^-1074] of the subnormal range as the finest one. *)
Definition float_inverse (z : Z) : Q :=
  let a := Z.abs z in
  let e := Z.min (Z.log2 a + 53) 1074 in
  let m := round_half_even (2 ^ e) a in
  Qmake (Z.sgn z * m) (Z.to_pos (2 ^ e)).

(** [1 / self.upscale_factor]. *)
Definition one_over (z : Z) : Exn.t + Q :=
  if z =? 0 then inl Exn.ZeroDivisionError else inr (float_inverse z).

(** The body of the loop of [read_image_to_memory]; the progress bar and
    the switching of the garbage collector change no value and are left
    out. *)
Definition read_one (self : t) (image_file_name : string) : Eff.M rng image t :=
  raw <- Eff.lift (match imread image_file_name with
                   | Some a => inr a
                   | None => inl Exn.AttributeError
                   end) ;;
  let hr_image := unit_float raw in
  factor <- Eff.lift (one_over (upscale_factor self)) ;;
  lr_image <- imresize hr_image factor ;;
  lr_image <- imresize lr_image (inject_Z (upscale_factor self)) ;;
  lr_y_image <- bgr2ycbcr lr_image true ;;
  hr_y_image <- bgr2ycbcr hr_image true ;;
  lr_y_tensor <- image2tensor lr_y_image false false ;;
  hr_y_tensor <- image2tensor hr_y_image false false ;;
  Eff.ret (mk (image_file_names self) (upscale_factor self)
              (lr_datasets self ++ [lr_y_tensor])
              (hr_datasets self ++ [hr_y_tensor])).

Fixpoint read_images (self : t) (names : list string) : Eff.M rng image t :=
  match names with
  | [] => Eff.ret self
  | name :: rest => self' <- read_one self name ;; read_images self' rest
  end.

Definition read_image_to_memory (self : t) : Eff.M rng image t :=
  read_images self (image_file_names self).

Definition init (test_image_dir : string) (upscale_factor : Z)
  : Eff.M rng image t :=
  names <- Eff.lift (match listdir test_image_dir with
                     | Some l => inr l
                     | None => inl Exn.FileNotFoundError
                     end) ;;
  read_image_to_memory
    (mk (map (PyList.path_join test_image_dir) names) upscale_factor [] []).

Definition getitem (self : t) (batch_index : Z)
  : Exn.t + TrainValidImageDataset.sample tensor :=
  match PyList.index (lr_datasets self) batch_index,
        PyList.index (hr_datasets self) batch_index with
  | inr l, inr h => inr (TrainValidImageDataset.mkSample l h)
  | inl e, _ => inl e
  | _, inl e => inl e
  end.

Definition len (self : t) : nat := List.length (image_file_names self).

End Defs.
Arguments t tensor : clear implicits.
End TestImageDataset.

(* ===================================================================== *)
(** ** A model of imgproc that follows image shapes *)
(* ===================================================================== *)

Module ShapeModel.

(** An image or tensor by its height and width; pixel values are
    [float32] and are left out. *)
Definition shape : Type := (Z * Z)%type.

(** The draws Python's [random] will make, in order. *)
Definition rng : Type := list nat.

Definition draw : Eff.M rng shape nat :=
  fun w =>
    match Eff.rand w with
    | [] => (inr O, w)
    | n :: rest => (inr n, Eff.mkWorld rest (Eff.stdout w))
    end.

Definition exceeds (size : Z) (s : shape) : bool :=
  (fst s <? size) || (snd s <? size).

(** The relative scale between a low and a high resolution image. *)
Definition relative_scale (lr hr : shape) : Z := fst hr / fst lr.

(** Modelled from the spec: [imgproc.random_crop] is not among the sources.
    It picks a random top-left offset valid for [size x size] and crops both
    images; it fails with [CropTooLarge] if [size] exceeds either image's
    dimension. *)
Definition random_crop (lr hr : shape) (size : Z)
  : Eff.M rng shape (shape * shape) :=
  if exceeds size lr || exceeds size hr then Eff.raise Exn.CropTooLarge
  else
    _ <- draw ;;
    _ <- draw ;;
    Eff.ret ((size, size),
             (size * relative_scale lr hr, size * relative_scale lr hr)).

Definition turn (angle : Z) (s : shape) : shape :=
  if angle mod 180 =? 90 then (snd s, fst s) else s.

(** Modelled from the spec: [imgproc.random_rotate] is not among the
    sources.  It selects one angle from the given set and rotates both
    images by that angle. *)
Definition random_rotate (lr hr : shape) (angles : list Z)
  : Eff.M rng shape (shape * shape) :=
  n <- draw ;;
  let angle := nth (n mod List.length angles)%nat angles 0 in
  Eff.ret (turn angle lr, turn angle hr).

(** Modelled from the spec: the flips of [imgproc] are not among the
    sources.  Each flips both images with the given probability; a flip
    keeps the shape. *)
Definition random_flip (lr hr : shape) (p : Q)
  : Eff.M rng shape (shape * shape) :=
  _ <- draw ;;
  Eff.ret (lr, hr).

(** Modelled from the spec: [imgproc.center_crop] is not among the sources.
    With crop size [c <= min(H, W)] it yields sizes [(c, c)] and
    [(c*s, c*s)], without randomness. *)
Definition center_crop (lr hr : shape) (size : Z)
  : Eff.M rng shape (shape * shape) :=
  if exceeds size lr || exceeds size hr then Eff.raise Exn.CropTooLarge
  else
    Eff.ret ((size, size),
             (size * relative_scale lr hr, size * relative_scale lr hr)).

(** Modelled from the spec: [imgproc.imresize] is not among the sources.
    The spec gives it as [resample(image, factor)]; each extent is scaled
    by the factor and rounded to a whole number of pixels by [rnd]. *)
Definition imresize (rnd : Q -> Z) (img : shape) (factor : Q)
  : Eff.M rng shape shape :=
  Eff.ret (rnd (inject_Z (fst img) * factor)%Q,
           rnd (inject_Z (snd img) * factor)%Q).

(** Modelled from the spec: [imgproc.bgr2ycbcr] and [imgproc.image2tensor]
    are not among the sources.  Taking the luminance channel and packing as
    a tensor keep height and width. *)
Definition keep_shape (img : shape) : Eff.M rng shape shape := Eff.ret img.

Definition imgproc (rnd : Q -> Z) : Imgproc rng shape shape :=
  Build_Imgproc rng shape shape
    random_crop
    random_rotate
    random_flip
    random_flip
    center_crop
    (fun img _ _ => keep_shape img)
    (imresize rnd)
    (fun img _ => keep_shape img).

(** A directory tree: each directory with the names and shapes of the
    images it holds. *)
Definition disk : Type := list (string * list (string * shape)).

Definition lookup {X} (key : string) (l : list (string * X)) : option X :=
  match find (fun e => String.eqb (fst e) key) l with
  | Some e => Some (snd e)
  | None => None
  end.

Definition all_files (d : disk) : list (string * shape) :=
  flat_map (fun e => map (fun f => (PyList.path_join (fst e) (fst f), snd f))
                         (snd e)) d.

Definition files (d : disk) : Files shape := {|
  listdir := fun dir => option_map (map fst) (lookup dir d);
  imread := fun path => lookup path (all_files d);
  unit_float := fun img => img
|}.

(** MATLAB's convention for [imresize]: extents are rounded up. *)
Definition matlab : Imgproc rng shape shape := imgproc Qceiling.

End ShapeModel.

(* ===================================================================== *)
(** ** Inputs used in the examples *)
(* ===================================================================== *)

Module Examples.

Definition world0 : Eff.world ShapeModel.rng ShapeModel.shape :=
  Eff.mkWorld [1%nat; 0%nat; 1%nat] [].

(** A training set of one 32 x 32 pair, to be cropped to 41 x 41 (the
    [image_size] of [config.py]). *)
Definition small_train : TrainValidImageDataset.t ShapeModel.shape :=
  TrainValidImageDataset.mk
    ["data/TB291/train/lr/0.png"%string]
    ["data/TB291/train/hr/0.png"%string]
    41 "Train"
    [(32, 32)] [(32, 32)].

Definition empty_dir : ShapeModel.disk := [("data/Set5/GTmod12"%string, [])].

Definition one_image (h w : Z) : ShapeModel.disk :=
  [("data/Set5/GTmod12"%string, [("baby.png"%string, (h, w))])].

(** A training directory with two low-resolution images and one
    high-resolution image. *)
Definition uneven_train : ShapeModel.disk :=
  [("data/TB291/train/lr"%string,
    [("0.png"%string, (41, 41)); ("1.png"%string, (41, 41))]);
   ("data/TB291/train/hr"%string, [("0.png"%string, (41, 41))])].

(** What [TrainValidImageDataset("data/TB291/train", 41, "Train")] builds
    over that directory. *)
Definition uneven_train_set : TrainValidImageDataset.t ShapeModel.shape :=
  TrainValidImageDataset.mk
    ["data/TB291/train/lr/0.png"%string; "data/TB291/train/lr/1.png"%string]
    ["data/TB291/train/hr/0.png"%string]
    41 "Train"
    [(41, 41); (41, 41)] [(41, 41)].

(** What [TestImageDataset("data/Set5/GTmod12", 2)] builds over a directory
    with one 64 x 64 image. *)
Definition baby_set : TestImageDataset.t ShapeModel.shape :=
  TestImageDataset.mk ["data/Set5/GTmod12/baby.png"%string] 2
    [(64, 64)] [(64, 64)].

End Examples.

(* ===================================================================== *)
(** * Properties *)
(* ===================================================================== *)

(** ** The worker, the queue and the consumer *)

Module PrefetchGeneratorFacts.
Import PrefetchGenerator.

Section Facts.
Context {A : Type}.
Implicit Types (s : t A) (d : drain A) (l : list (item A)) (xs : list A).

Lemma put_items (q q' : pyqueue A) x :
  put q x = Some q' -> items q' = items q ++ [x] /\ maxsize q' = maxsize q.
Proof.
  unfold put. destruct (full q); [discriminate|].
  intros E. injection E as <-. split; reflexivity.
Qed.

Lemma put_empty (q : pyqueue A) x :
  items q = [] -> exists q', put q x = Some q'.
Proof.
  intros E. unfold put, full. rewrite E. cbn.
  destruct (0 <? maxsize q) eqn:Hm; cbn; [|eauto].
  destruct (maxsize q <=? 0) eqn:Hn; [|eauto].
  apply Z.ltb_lt in Hm. apply Z.leb_le in Hn. lia.
Qed.

(** The worker moves items along; it never changes what is still to be
    delivered. *)
Lemma stream_run_step s s' : run_step s = Some s' -> stream s' = stream s.
Proof.
  unfold run_step, stream. destruct s as [g p q]; cbn.
  destruct p as [|x| |].
  - destruct g as [|y g]; intros E; injection E as <-; cbn; reflexivity.
  - destruct (put q x) as [q'|] eqn:Hp; [|discriminate].
    intros E; injection E as <-; cbn.
    apply put_items in Hp as [-> _]. rewrite <- app_assoc. reflexivity.
  - destruct (put q None) as [q'|] eqn:Hp; [|discriminate].
    intros E; injection E as <-; cbn.
    apply put_items in Hp as [-> _]. rewrite app_nil_r. reflexivity.
  - discriminate.
Qed.

(** A returning [__next__] takes the head of what is still to be
    delivered. *)
Lemma stream_next_step s r s' :
  next_step s = Some (r, s') -> stream s = item_of r :: stream s'.
Proof.
  unfold next_step, get, stream. destruct s as [g p q]; cbn.
  destruct (items q) as [|x rest] eqn:Hq; [discriminate|].
  destruct x as [a|]; intros E; injection E as <- <-; cbn; reflexivity.
Qed.

Lemma stream_next_call s r s' :
  next_call s r s' -> stream s = item_of r :: stream s'.
Proof.
  induction 1 as [s r s' E | s s1 r s' E _ IH].
  - apply stream_next_step; assumption.
  - rewrite <- (stream_run_step _ _ E). assumption.
Qed.

Lemma stream_calls s rs s' :
  calls s rs s' -> stream s = map item_of rs ++ stream s'.
Proof.
  induction 1 as [s | s r s1 rs s' E _ IH]; [reflexivity|].
  cbn. rewrite (stream_next_call _ _ _ E), IH. reflexivity.
Qed.

Lemma stream_init l n : stream (init l n) = l ++ [None].
Proof. reflexivity. Qed.

(** Nothing is lost or reordered between the generator and the consumer. *)
Lemma step_conserves d d' :
  step d d' -> consumed d' ++ stream (sys d') = consumed d ++ stream (sys d).
Proof.
  destruct 1 as [d s' E | d r s' Hs E].
  - unfold consumed; cbn. rewrite (stream_run_step _ _ E). reflexivity.
  - rewrite (stream_next_step _ _ _ E). unfold consumed. rewrite Hs.
    destruct r as [a|]; cbn.
    + rewrite map_app, app_nil_r, app_nil_r, <- app_assoc. reflexivity.
    + rewrite app_nil_r, <- app_assoc. reflexivity.
Qed.

Lemma steps_conserve n d d' :
  steps n d d' -> consumed d' ++ stream (sys d') = consumed d ++ stream (sys d).
Proof.
  induction 1 as [d | n d1 d2 d3 E _ IH]; [reflexivity|].
  rewrite IH. apply step_conserves; assumption.
Qed.

(** The capacity of the queue never changes. *)
Lemma run_step_maxsize s s' :
  run_step s = Some s' -> maxsize (queue s') = maxsize (queue s).
Proof.
  unfold run_step. destruct s as [g p q]; cbn.
  destruct p as [|x| |].
  - destruct g; intros E; injection E as <-; reflexivity.
  - destruct (put q x) eqn:Hp; [|discriminate].
    intros E; injection E as <-. cbn. apply put_items in Hp as [_ ->]. reflexivity.
  - destruct (put q None) eqn:Hp; [|discriminate].
    intros E; injection E as <-. cbn. apply put_items in Hp as [_ ->]. reflexivity.
  - discriminate.
Qed.

Lemma next_step_queue s r s' :
  next_step s = Some (r, s') ->
  maxsize (queue s') = maxsize (queue s) /\
  items (queue s) = item_of r :: items (queue s') /\
  generator s' = generator s /\ pc s' = pc s.
Proof.
  unfold next_step, get. destruct (items (queue s)) as [|x rest]; [discriminate|].
  destruct x; intros E; injection E as <- <-; cbn; auto.
Qed.

Lemma put_within (q q' : pyqueue A) x :
  within_capacity q -> put q x = Some q' -> within_capacity q'.
Proof.
  unfold within_capacity, put, full. intros Hq.
  destruct (0 <? maxsize q) eqn:Hm; cbn.
  - destruct (maxsize q <=? Z.of_nat (List.length (items q))) eqn:Hn; [discriminate|].
    intros E; injection E as <-; cbn. intros _.
    apply Z.leb_gt in Hn. rewrite length_app. cbn. lia.
  - intros E; injection E as <-; cbn. apply Z.ltb_ge in Hm. lia.
Qed.

Lemma step_within d d' :
  step d d' -> within_capacity (queue (sys d)) -> within_capacity (queue (sys d')).
Proof.
  destruct 1 as [d s' E | d r s' Hs E]; intros Hq.
  - cbn. unfold run_step in E. destruct (sys d) as [g p q]; cbn in *.
    destruct p as [|x| |].
    + destruct g; injection E as <-; assumption.
    + destruct (put q x) eqn:Hp; [|discriminate]. injection E as <-.
      cbn. eapply put_within; eassumption.
    + destruct (put q None) eqn:Hp; [|discriminate]. injection E as <-.
      cbn. eapply put_within; eassumption.
    + discriminate.
  - apply next_step_queue in E as (Hm & Hi & _).
    assert (queue (sys (consume d r s')) = queue s') as -> by (destruct r; reflexivity).
    unfold within_capacity in *. rewrite Hm. intros H0. specialize (Hq H0).
    rewrite Hi in Hq. cbn [List.length] in Hq. lia.
Qed.

Lemma step_maxsize d d' :
  step d d' -> maxsize (queue (sys d')) = maxsize (queue (sys d)).
Proof.
  destruct 1 as [d s' E | d r s' Hs E].
  - cbn. apply run_step_maxsize; assumption.
  - apply next_step_queue in E as (Hm & _). destruct r; cbn; assumption.
Qed.

Lemma steps_within n d d' :
  steps n d d' -> within_capacity (queue (sys d)) ->
  within_capacity (queue (sys d')) /\
  maxsize (queue (sys d')) = maxsize (queue (sys d)).
Proof.
  induction 1 as [d | n d1 d2 d3 E _ IH]; intros Hq; [auto|].
  destruct (IH (step_within _ _ E Hq)) as [H1 H2]. split; [assumption|].
  rewrite H2. apply step_maxsize; assumption.
Qed.

(** Every action uses up some of the budget. *)
Lemma step_budget d d' : step d d' -> (budget d' < budget d)%nat.
Proof.
  destruct 1 as [d s' E | d r s' Hs E]; unfold budget.
  - cbn. unfold run_step in E. destruct (sys d) as [g p q]; cbn in *.
    destruct p as [|x| |].
    + destruct g; injection E as <-; cbn; lia.
    + destruct (put q x) eqn:Hp; [|discriminate]. injection E as <-.
      apply put_items in Hp as [Hp _]. cbn. rewrite Hp, length_app. cbn. lia.
    + destruct (put q None) eqn:Hp; [|discriminate]. injection E as <-.
      apply put_items in Hp as [Hp _]. cbn. rewrite Hp, length_app. cbn. lia.
    + discriminate.
  - apply next_step_queue in E as (_ & Hi & Hg & Hp).
    assert (sys (consume d r s') = s') as -> by (destruct r; reflexivity).
    rewrite Hg, Hp, Hi. cbn [List.length]. lia.
Qed.

Lemma steps_budget n d d' : steps n d d' -> (n + budget d' <= budget d)%nat.
Proof.
  induction 1 as [d | n d1 d2 d3 E _ IH]; [lia|].
  apply step_budget in E. lia.
Qed.

Lemma none_free_prefix_app xs l :
  none_free_prefix (map Some xs ++ l) = xs ++ none_free_prefix l.
Proof. induction xs as [|x xs IH]; cbn; [|rewrite IH]; reflexivity. Qed.

Lemma none_free_prefix_sentinel l :
  none_free_prefix (l ++ [None]) = none_free_prefix l.
Proof.
  induction l as [|[a|] l IH]; cbn; [reflexivity| |reflexivity].
  rewrite IH. reflexivity.
Qed.

Lemma none_free_prefix_some xs : none_free_prefix (map Some xs) = xs.
Proof.
  rewrite <- (app_nil_r (map Some xs)), none_free_prefix_app.
  apply app_nil_r.
Qed.


Lemma some_items_not_sentinel xs l : map Some xs <> l ++ [@None A].
Proof.
  intros E.
  assert (In (@None A) (map Some xs)) as Hin
    by (rewrite E; apply in_or_app; right; left; reflexivity).
  apply in_map_iff in Hin as (x & Hx & _). discriminate.
Qed.

(** While the consumer has not stopped, some actor can act. *)
Lemma progress l d :
  consumed d ++ stream (sys d) = l ++ [None] ->
  stopped d = false -> exists d', step d d'.
Proof.
  unfold consumed. intros Hc Hs. rewrite Hs, app_nil_r in Hc.
  destruct (items (queue (sys d))) as [|x rest] eqn:Hq.
  - destruct (pc (sys d)) as [|x| |] eqn:Hp.
    + destruct (generator (sys d)) as [|y g] eqn:Hg;
        eexists; apply step_worker; unfold run_step; rewrite Hp, Hg; reflexivity.
    + destruct (put_empty (queue (sys d)) x Hq) as [q' Hq'].
      eexists. apply step_worker. unfold run_step. rewrite Hp, Hq'. reflexivity.
    + destruct (put_empty (queue (sys d)) None Hq) as [q' Hq'].
      eexists. apply step_worker. unfold run_step. rewrite Hp, Hq'. reflexivity.
    + exfalso. unfold stream in Hc. rewrite Hq, Hp, app_nil_r in Hc.
      eapply some_items_not_sentinel; eassumption.
  - destruct x as [a|].
    + exists (consume d (Return a) (mkGen (generator (sys d)) (pc (sys d))
                                         (mkQueue (maxsize (queue (sys d))) rest))).
      apply step_consumer; [assumption|]. unfold next_step, get. rewrite Hq. reflexivity.
    + exists (consume d Stop (mkGen (generator (sys d)) (pc (sys d))
                                   (mkQueue (maxsize (queue (sys d))) rest))).
      apply step_consumer; [assumption|]. unfold next_step, get. rewrite Hq. reflexivity.
Qed.

(** What every interleaving of a drain satisfies: the consumer has
    received a prefix of the [None]-free prefix of the input, all of it once
    it has stopped; it can go on until then; and the run is finite. *)
Lemma drain_invariant l n0 n d :
  steps n (start l n0) d ->
  (exists rest, none_free_prefix l = out d ++ rest) /\
  (stopped d = true -> out d = none_free_prefix l) /\
  (stopped d = false -> exists d', step d d') /\
  (n + budget d <= 3 * List.length l + 3)%nat.
Proof.
  intros Hst. pose proof (steps_conserve _ _ _ Hst) as Hc.
  pose proof (steps_budget _ _ _ Hst) as Hb.
  change (consumed (start l n0) ++ stream (sys (start l n0))) with (l ++ [@None A]) in Hc.
  change (budget (start l n0)) with (3 * List.length l + 3 + 0)%nat in Hb.
  assert (none_free_prefix l =
          out d ++ (if stopped d then [] else none_free_prefix (stream (sys d)))) as Hp.
  { rewrite <- (none_free_prefix_sentinel l), <- Hc. unfold consumed.
    destruct (stopped d).
    - rewrite <- app_assoc, none_free_prefix_app. reflexivity.
    - rewrite app_nil_r, none_free_prefix_app. reflexivity. }
  repeat split.
  - eexists; exact Hp.
  - intros Hs. rewrite Hs, app_nil_r in Hp. symmetry; exact Hp.
  - intros Hs. eapply progress; eassumption.
  - lia.
Qed.

Lemma act_step a d : act a d = d \/ step d (act a d).
Proof.
  destruct a; unfold act.
  - destruct (run_step (sys d)) eqn:E; [right|left; reflexivity].
    apply step_worker; assumption.
  - destruct (stopped d) eqn:Hs; [left; reflexivity|].
    destruct (next_step (sys d)) as [[r s']|] eqn:E; [right|left; reflexivity].
    apply step_consumer; assumption.
Qed.

(** Running a schedule is one of the interleavings. *)
Lemma exec_steps sched d : exists n, steps n d (exec sched d).
Proof.
  revert d. induction sched as [|a sched IH]; intros d.
  - exists O. constructor.
  - change (exec (a :: sched) d) with (exec sched (act a d)).
    destruct (IH (act a d)) as [n Hn].
    destruct (act_step a d) as [E | E].
    + exists n. rewrite E in Hn |- *. assumption.
    + exists (S n). econstructor; eassumption.
Qed.

End Facts.
End PrefetchGeneratorFacts.

(** ** The blocking call [__next__] as a function *)

Module NextFacts.
Import PrefetchGenerator PrefetchGeneratorFacts.

Section Facts.
Context {A : Type}.
Implicit Types (s : t A).

Lemma put_on_empty m (x : item A) : put (mkQueue m []) x = Some (mkQueue m [x]).
Proof.
  unfold put, full; cbn.
  destruct (0 <? m) eqn:Hm; cbn; [|reflexivity].
  destruct (m <=? 0) eqn:Hn; [|reflexivity].
  apply Z.ltb_lt in Hm. apply Z.leb_le in Hn. lia.
Qed.

(** [next] hands over the head of what is still to be delivered, and does
    so along one of the interleavings; with nothing left to deliver it
    never returns. *)
Lemma next_stream s :
  match stream s with
  | [] => next s = Py.Blocks
  | x :: rest =>
      exists s', stream s' = rest /\
        match x with
        | Some a => next s = Py.Yield a s' /\ next_call s (Return a) s'
        | None => next s = Py.StopIteration s' /\ next_call s Stop s'
        end
  end.
Proof.
  destruct s as [g p [m its]]. destruct its as [|x its].
  - destruct p as [|x| |]; unfold stream; cbn [items queue pc generator app].
    + destruct g as [|x g]; cbn [app].
      * exists (mkGen [] RunDone (mkQueue m [])). split; [reflexivity|].
        unfold next, next_within, next_step, run_step; cbn.
        rewrite put_on_empty; cbn. split; [reflexivity|].
        eapply next_wait; [reflexivity|].
        eapply next_wait; [unfold run_step; cbn; rewrite put_on_empty; reflexivity|].
        apply next_now. reflexivity.
      * exists (mkGen g RunLoop (mkQueue m [])). split; [reflexivity|].
        unfold next, next_within, next_step, run_step; cbn.
        rewrite put_on_empty; cbn.
        destruct x as [a|]; (split; [reflexivity|]);
          (eapply next_wait; [reflexivity|]);
          (eapply next_wait; [unfold run_step; cbn; rewrite put_on_empty; reflexivity|]);
          apply next_now; reflexivity.
    + exists (mkGen g RunLoop (mkQueue m [])). split; [reflexivity|].
      unfold next, next_within, next_step, run_step; cbn.
      rewrite put_on_empty; cbn.
      destruct x as [a|]; (split; [reflexivity|]);
        (eapply next_wait; [unfold run_step; cbn; rewrite put_on_empty; reflexivity|]);
        apply next_now; reflexivity.
    + exists (mkGen g RunDone (mkQueue m [])). split; [reflexivity|].
      unfold next, next_within, next_step, run_step; cbn.
      rewrite put_on_empty; cbn. split; [reflexivity|].
      eapply next_wait; [unfold run_step; cbn; rewrite put_on_empty; reflexivity|].
      apply next_now; reflexivity.
    + reflexivity.
  - unfold stream; cbn [items queue app].
    exists (mkGen g p (mkQueue m its)). split; [reflexivity|].
    destruct x as [a|]; (split; [reflexivity|apply next_now; reflexivity]).
Qed.

(** With nothing left to deliver, no interleaving lets [__next__] return. *)
Lemma next_call_needs_item s r s' : next_call s r s' -> stream s <> [].
Proof. intros H E. apply stream_next_call in H. congruence. Qed.

End Facts.
End NextFacts.

(** ** The prefetchers over a plain DataLoader *)

Module PrefetcherFacts.

Section Facts.
Context {B : Type}.
Variable dl : DataLoader.t B.
Variable dev : B -> B.
Local Abbreviation cuda := (CUDAPrefetcher.t (DataLoader.t B) (list B) B).
Implicit Types (p : cuda) (u handed : list B).

Lemma init_holds :
  exists p0, CUDAPrefetcher.init dl dev = Some p0 /\ Lookahead.holds dl dev [] dl p0.
Proof.
  unfold CUDAPrefetcher.init, CUDAPrefetcher.preload, Py.py_iter, Py.py_next,
    DataLoader.iterable, DataLoader.iterator; cbn.
  destruct dl as [|b rest]; eexists; (split; [reflexivity|]);
    repeat split; reflexivity.
Qed.

(** [next] hands out the staged batch and stages the one after it. *)
Lemma next_holds handed u p :
  Lookahead.holds dl dev handed u p ->
  exists p',
    CUDAPrefetcher.next p = Some (option_map dev (hd_error u), p') /\
    Lookahead.holds dl dev (handed ++ firstn 1 u) (tl u) p' /\
    List.length (CUDAPrefetcher.data p') = pred (List.length (CUDAPrefetcher.data p)).
Proof.
  intros (Hdl & Hb & Hd & Ho & Hv). destruct p as [bd od dv dt]; cbn in *. subst.
  unfold CUDAPrefetcher.next, CUDAPrefetcher.preload, Py.py_next,
    DataLoader.iterator; cbn.
  destruct u as [|b [|b' u']]; cbn; eexists; (split; [reflexivity|]);
    (split; [|reflexivity]); repeat split; cbn;
    rewrite <- ?app_assoc, ?app_nil_r; reflexivity.
Qed.

(** [reset] starts over from the first batch of the loader. *)
Lemma reset_holds handed u p :
  Lookahead.holds dl dev handed u p ->
  exists p', CUDAPrefetcher.reset p = Some p' /\ Lookahead.holds dl dev [] dl p'.
Proof.
  intros (Hdl & Hb & Hd & Ho & Hv). destruct p as [bd od dv dt]; cbn in *. subst od dv.
  unfold CUDAPrefetcher.reset, CUDAPrefetcher.preload, Py.py_iter, Py.py_next,
    DataLoader.iterable, DataLoader.iterator; cbn.
  destruct dl as [|b rest]; eexists; (split; [reflexivity|]);
    repeat split; reflexivity.
Qed.

(** Any sequence of calls runs to its end and keeps the split. *)
Lemma run_holds cs : forall handed u p,
  Lookahead.holds dl dev handed u p ->
  exists tr p' handed' u',
    CUDAPrefetcher.run p cs = Some (tr, p') /\
    Lookahead.holds dl dev handed' u' p' /\
    CUDAPrefetcher.since_reset tr (map dev handed) = map dev handed'.
Proof.
  induction cs as [|c cs IH]; intros handed u p Hp.
  - exists [], p, handed, u. repeat split; try apply Hp; reflexivity.
  - destruct c.
    + destruct (next_holds _ _ _ Hp) as (p1 & Hn & Hp1 & _).
      destruct (IH _ _ _ Hp1) as (tr & p' & handed' & u' & Hr & Hp' & Hs).
      exists (CUDAPrefetcher.Returned (option_map dev (hd_error u)) :: tr), p', handed', u'.
      cbn [CUDAPrefetcher.run]. rewrite Hn, Hr. split; [reflexivity|].
      split; [assumption|]. rewrite <- Hs.
      destruct u as [|b u0]; cbn; [rewrite app_nil_r; reflexivity|].
      rewrite map_app. reflexivity.
    + destruct (reset_holds _ _ _ Hp) as (p1 & Hn & Hp1).
      destruct (IH _ _ _ Hp1) as (tr & p' & handed' & u' & Hr & Hp' & Hs).
      exists (CUDAPrefetcher.WasReset :: tr), p', handed', u'.
      cbn [CUDAPrefetcher.run]. rewrite Hn, Hr. split; [reflexivity|].
      split; assumption.
Qed.

(** Past the end every call returns [None] and leaves the state there. *)
Lemma nexts_at_end n : forall handed p,
  Lookahead.holds dl dev handed [] p ->
  exists p', CUDAPrefetcher.nexts n p = Some (repeat None n, p') /\
             Lookahead.holds dl dev handed [] p'.
Proof.
  induction n as [|n IH]; intros handed p Hp.
  - exists p. split; [reflexivity|assumption].
  - destruct (next_holds _ _ _ Hp) as (p1 & Hn & Hp1 & _).
    cbn in Hp1. rewrite app_nil_r in Hp1.
    destruct (IH _ _ Hp1) as (p' & Hr & Hp').
    exists p'. cbn [CUDAPrefetcher.nexts repeat]. rewrite Hn, Hr.
    split; [reflexivity|assumption].
Qed.

(** Draining hands out every upcoming batch, then sees [None]. *)
Lemma drain_holds u : forall handed p,
  Lookahead.holds dl dev handed u p ->
  exists p', CUDAPrefetcher.drain (S (List.length u)) p = Some (map dev u, p') /\
             Lookahead.holds dl dev (handed ++ u) [] p'.
Proof.
  induction u as [|b u IH]; intros handed p Hp.
  - destruct (next_holds _ _ _ Hp) as (p1 & Hn & Hp1 & _).
    exists p1. cbn [CUDAPrefetcher.drain List.length]. rewrite Hn. cbn.
    split; [reflexivity|assumption].
  - destruct (next_holds _ _ _ Hp) as (p1 & Hn & Hp1 & _).
    cbn [tl firstn] in Hp1.
    destruct (IH _ _ Hp1) as (p' & Hr & Hp').
    exists p'. cbn [List.length]. remember (S (List.length u)) as f.
    cbn [CUDAPrefetcher.drain]. rewrite Hn. cbn [option_map hd_error].
    rewrite Hr. split; [reflexivity|].
    rewrite <- app_assoc in Hp'. exact Hp'.
Qed.

Local Abbreviation cpu := (CPUPrefetcher.t (DataLoader.t B) (list B)).

Lemma cpu_drain_list (u : list B) : forall (o : DataLoader.t B),
  CPUPrefetcher.drain (S (List.length u)) (CPUPrefetcher.mk o u) =
  Some (u, CPUPrefetcher.mk o []).
Proof.
  induction u as [|b u IH]; intros o; [reflexivity|].
  cbn [List.length]. remember (S (List.length u)) as f.
  cbn [CPUPrefetcher.drain]. unfold CPUPrefetcher.next at 1; cbn.
  subst f. rewrite IH. reflexivity.
Qed.

End Facts.
End PrefetcherFacts.

(** ** The prefetchers over a PrefetchDataLoader *)

Module QueueBackedFacts.
Import PrefetchGenerator.

Section Facts.
Context {A : Type}.
Local Abbreviation cpu :=
  (CPUPrefetcher.t (PrefetchDataLoader.t A) (PrefetchGenerator.t A)).
Local Abbreviation cuda :=
  (CUDAPrefetcher.t (PrefetchDataLoader.t A) (PrefetchGenerator.t A) A).

(** [CPUPrefetcher.next] returns exactly what [queue.get()] handed over. *)
Lemma cpu_next_stream (p : cpu) :
  match stream (CPUPrefetcher.data p) with
  | [] => CPUPrefetcher.next p = None
  | x :: rest =>
      exists p', CPUPrefetcher.next p = Some (x, p') /\
                 stream (CPUPrefetcher.data p') = rest /\
                 CPUPrefetcher.original_dataloader p' = CPUPrefetcher.original_dataloader p
  end.
Proof.
  pose proof (NextFacts.next_stream (CPUPrefetcher.data p)) as H.
  unfold CPUPrefetcher.next, Py.py_next, iterator.
  destruct (stream (CPUPrefetcher.data p)) as [|x rest].
  - rewrite H. reflexivity.
  - destruct H as (s' & Hs & H). destruct x as [a|]; destruct H as [-> _];
      eexists; repeat split; assumption.
Qed.

Lemma cpu_drain_stream (xs : list A) : forall (p : cpu) rest,
  stream (CPUPrefetcher.data p) = map Some xs ++ None :: rest ->
  exists p', CPUPrefetcher.drain (S (List.length xs)) p = Some (xs, p') /\
             stream (CPUPrefetcher.data p') = rest /\
             CPUPrefetcher.original_dataloader p' = CPUPrefetcher.original_dataloader p.
Proof.
  induction xs as [|x xs IH]; intros p rest Hs;
    pose proof (cpu_next_stream p) as Hn; rewrite Hs in Hn;
    destruct Hn as (p1 & Hn & Hs1 & Ho1).
  - exists p1. cbn [CPUPrefetcher.drain List.length]. rewrite Hn.
    repeat split; assumption.
  - destruct (IH p1 rest Hs1) as (p' & Hd & Hs' & Ho').
    exists p'. cbn [List.length]. remember (S (List.length xs)) as f.
    cbn [CPUPrefetcher.drain]. rewrite Hn, Hd.
    repeat split; [assumption|congruence].
Qed.

(** [CUDAPrefetcher.preload] takes the head of what is still to be
    delivered; with nothing left it never returns. *)
Lemma cuda_preload_stream (p : cuda) :
  match stream (CUDAPrefetcher.data p) with
  | [] => CUDAPrefetcher.preload p = None
  | x :: rest =>
      exists p', CUDAPrefetcher.preload p = Some p' /\
                 stream (CUDAPrefetcher.data p') = rest /\
                 CUDAPrefetcher.batch_data p' = option_map (CUDAPrefetcher.device p) x /\
                 CUDAPrefetcher.device p' = CUDAPrefetcher.device p
  end.
Proof.
  pose proof (NextFacts.next_stream (CUDAPrefetcher.data p)) as H.
  unfold CUDAPrefetcher.preload, Py.py_next, iterator.
  destruct (stream (CUDAPrefetcher.data p)) as [|x rest].
  - rewrite H. reflexivity.
  - destruct H as (s' & Hs & H). destruct x as [a|]; destruct H as [-> _];
      eexists; repeat split; assumption.
Qed.

(** Over a queue-backed loader the [CUDAPrefetcher] hands out every batch,
    and the call that should report the end never returns: its [preload]
    waits on the queue the finished worker has left empty. *)
Lemma cuda_over_queue_blocks_at_end (xs : list A) : forall (p : cuda) (b : A),
  CUDAPrefetcher.batch_data p = Some b ->
  stream (CUDAPrefetcher.data p) = map Some xs ++ [None] ->
  exists p',
    CUDAPrefetcher.nexts (S (List.length xs)) p =
      Some (Some b :: map (fun x => Some (CUDAPrefetcher.device p x)) xs, p') /\
    CUDAPrefetcher.batch_data p' = None /\
    CUDAPrefetcher.next p' = None.
Proof.
  induction xs as [|x xs IH]; intros p b Hb Hs;
    pose proof (cuda_preload_stream p) as Hn; rewrite Hs in Hn;
    destruct Hn as (p1 & Hn & Hs1 & Hb1 & Hd1).
  - exists p1. cbn [CUDAPrefetcher.nexts List.length].
    unfold CUDAPrefetcher.next at 1. rewrite Hn, Hb.
    repeat split; [assumption|].
    unfold CUDAPrefetcher.next.
    pose proof (cuda_preload_stream p1) as H1. rewrite Hs1 in H1.
    rewrite H1. reflexivity.
  - destruct (IH p1 (CUDAPrefetcher.device p x) Hb1 Hs1) as (p' & Hd & Hb' & Hk).
    exists p'. cbn [List.length]. remember (S (List.length xs)) as f.
    cbn [CUDAPrefetcher.nexts]. unfold CUDAPrefetcher.next at 1.
    rewrite Hn, Hb, Hd, Hd1. repeat split; assumption.
Qed.

End Facts.
End QueueBackedFacts.

(** ** Every drain comes to its end *)

Module LivenessFacts.
Import PrefetchGenerator PrefetchGeneratorFacts.

Section Facts.
Context {A : Type}.
Implicit Types (d : drain A) (l : list (item A)).




End Facts.
End LivenessFacts.

(** ** The lookahead of a CUDAPrefetcher over any loader *)

Module GenericLookahead.

Section Facts.
Context {L St B : Type} {il : Py.Iterable L St} {it : Py.Iterator St B}.
Implicit Types (p : CUDAPrefetcher.t L St B) (s : St).

Lemma pulls_snoc s s1 s2 rs x :
  Py.pulls s rs s1 -> Py.pulls s1 [x] s2 -> Py.pulls s (rs ++ [x]) s2.
Proof.
  induction 1 as [s | s b s1' rs s' E _ IH | s s1' rs s' E _ IH]; intros H2.
  - exact H2.
  - cbn. eapply Py.pulls_yield; [exact E|apply IH; exact H2].
  - cbn. eapply Py.pulls_stop; [exact E|apply IH; exact H2].
Qed.

(** A [preload] that returns has made one call of [next(self.data)] and
    staged what it handed over. *)
Lemma preload_pulls p p' :
  CUDAPrefetcher.preload p = Some p' ->
  exists x,
    Py.pulls (CUDAPrefetcher.data p) [x] (CUDAPrefetcher.data p') /\
    CUDAPrefetcher.batch_data p' = option_map (CUDAPrefetcher.device p) x /\
    CUDAPrefetcher.original_dataloader p' = CUDAPrefetcher.original_dataloader p /\
    CUDAPrefetcher.device p' = CUDAPrefetcher.device p.
Proof.
  unfold CUDAPrefetcher.preload.
  destruct (Py.py_next (CUDAPrefetcher.data p)) as [b s|s|] eqn:E;
    intros H; [| |discriminate]; injection H as <-; cbn.
  - exists (Some b). split; [|auto].
    eapply Py.pulls_yield; [exact E|constructor].
  - exists None. split; [|auto].
    eapply Py.pulls_stop; [exact E|constructor].
Qed.

Lemma next_pulls p r p' :
  CUDAPrefetcher.next p = Some (r, p') ->
  r = CUDAPrefetcher.batch_data p /\
  CUDAPrefetcher.preload p = Some p'.
Proof.
  unfold CUDAPrefetcher.next.
  destruct (CUDAPrefetcher.preload p) as [q|]; [|discriminate].
  intros H. injection H as <- <-. split; reflexivity.
Qed.

(** After any calls that return, all that was pulled from the loader since
    the last restart has been returned, but for the one staged batch. *)
Lemma run_one_ahead (cs : list CUDAPrefetcher.call) :
  forall p ret tr p' pulled,
  Py.pulls (Py.py_iter (CUDAPrefetcher.original_dataloader p)) pulled
           (CUDAPrefetcher.data p) ->
  map (option_map (CUDAPrefetcher.device p)) pulled =
    ret ++ [CUDAPrefetcher.batch_data p] ->
  CUDAPrefetcher.run p cs = Some (tr, p') ->
  CUDAPrefetcher.original_dataloader p' = CUDAPrefetcher.original_dataloader p /\
  CUDAPrefetcher.device p' = CUDAPrefetcher.device p /\
  exists pulled',
    Py.pulls (Py.py_iter (CUDAPrefetcher.original_dataloader p)) pulled'
             (CUDAPrefetcher.data p') /\
    map (option_map (CUDAPrefetcher.device p)) pulled' =
      CUDAPrefetcher.results_since_reset tr ret ++ [CUDAPrefetcher.batch_data p'].
Proof.
  induction cs as [|c cs IH]; intros p ret tr p' pulled Hp Hm Hr.
  - cbn in Hr. injection Hr as <- <-. split; [reflexivity|]. split; [reflexivity|].
    exists pulled. split; assumption.
  - destruct c; cbn [CUDAPrefetcher.run] in Hr.
    + destruct (CUDAPrefetcher.next p) as [[r p1]|] eqn:En; [|discriminate].
      destruct (CUDAPrefetcher.run p1 cs) as [[tr1 p2]|] eqn:Er; [|discriminate].
      injection Hr as <- <-.
      apply next_pulls in En as [-> En].
      apply preload_pulls in En as (x & Hx & Hb & Ho & Hd).
      destruct (IH p1 (ret ++ [CUDAPrefetcher.batch_data p]) tr1 p2 (pulled ++ [x]))
        as (Ho' & Hd' & pulled' & Hp' & Hm'); [| |exact Er|].
      * rewrite Ho. eapply pulls_snoc; eassumption.
      * rewrite Hd, map_app, Hm, Hb. reflexivity.
      * split; [congruence|]. split; [congruence|].
        exists pulled'. rewrite Ho, Hd in *. split; assumption.
    + destruct (CUDAPrefetcher.reset p) as [p1|] eqn:En; [|discriminate].
      destruct (CUDAPrefetcher.run p1 cs) as [[tr1 p2]|] eqn:Er; [|discriminate].
      injection Hr as <- <-.
      unfold CUDAPrefetcher.reset in En.
      apply preload_pulls in En as (x & Hx & Hb & Ho & Hd). cbn in Hx, Hb, Ho, Hd.
      destruct (IH p1 [] tr1 p2 [x]) as (Ho' & Hd' & pulled' & Hp' & Hm');
        [| |exact Er|].
      * rewrite Ho. exact Hx.
      * rewrite Hd, Hb. reflexivity.
      * split; [congruence|]. split; [congruence|].
        exists pulled'. rewrite Ho, Hd in *. split; assumption.
Qed.

End Facts.
End GenericLookahead.

(** ** A CUDAPrefetcher at the end of a queue-backed loader *)

Module QueueBackedEnd.
Import PrefetchGenerator.

Section Facts.
Context {A : Type}.
Local Abbreviation cuda :=
  (CUDAPrefetcher.t (PrefetchDataLoader.t A) (PrefetchGenerator.t A) A).
Implicit Types (p : cuda) (xs : list A).

Lemma preload_takes_head p x rest :
  stream (CUDAPrefetcher.data p) = x :: rest ->
  exists p',
    CUDAPrefetcher.preload p = Some p' /\
    stream (CUDAPrefetcher.data p') = rest /\
    CUDAPrefetcher.batch_data p' = option_map (CUDAPrefetcher.device p) x /\
    CUDAPrefetcher.original_dataloader p' = CUDAPrefetcher.original_dataloader p /\
    CUDAPrefetcher.device p' = CUDAPrefetcher.device p.
Proof.
  intros Hs. pose proof (NextFacts.next_stream (CUDAPrefetcher.data p)) as H.
  rewrite Hs in H. destruct H as (s' & Hs' & H).
  unfold CUDAPrefetcher.preload, Py.py_next, iterator.
  destruct x as [a|]; destruct H as [-> _]; eexists; repeat split; assumption.
Qed.

Lemma preload_blocks p :
  stream (CUDAPrefetcher.data p) = [] -> CUDAPrefetcher.preload p = None.
Proof.
  intros Hs. pose proof (NextFacts.next_stream (CUDAPrefetcher.data p)) as H.
  rewrite Hs in H. unfold CUDAPrefetcher.preload, Py.py_next, iterator.
  rewrite H. reflexivity.
Qed.

(** With nothing left to deliver, the caller's loop never gets an answer. *)
Lemma drain_blocks_at_end p (fuel : nat) :
  stream (CUDAPrefetcher.data p) = [] -> CUDAPrefetcher.drain fuel p = None.
Proof.
  intros Hs. destruct fuel as [|fuel]; [reflexivity|].
  cbn [CUDAPrefetcher.drain]. unfold CUDAPrefetcher.next.
  rewrite (preload_blocks p Hs). reflexivity.
Qed.

(** With a batch staged and only batches and the sentinel left to deliver,
    the caller's loop gets every batch and then waits for ever: no amount of
    fuel makes it return. *)
Lemma drain_blocks xs : forall p b (fuel : nat),
  CUDAPrefetcher.batch_data p = Some b ->
  stream (CUDAPrefetcher.data p) = map Some xs ++ [None] ->
  CUDAPrefetcher.drain fuel p = None.
Proof.
  induction xs as [|x xs IH]; intros p b fuel Hb Hs;
    (destruct fuel as [|fuel]; [reflexivity|]);
    destruct (preload_takes_head p _ _ Hs) as (p1 & Hn & Hs1 & Hb1 & _);
    cbn [CUDAPrefetcher.drain]; unfold CUDAPrefetcher.next; rewrite Hn, Hb.
  - rewrite (drain_blocks_at_end p1 fuel Hs1). reflexivity.
  - rewrite (IH p1 _ fuel Hb1 Hs1). reflexivity.
Qed.

(** The calls of [next] up to the one that stages the end. *)
Lemma nexts_to_end xs : forall p b,
  CUDAPrefetcher.batch_data p = Some b ->
  stream (CUDAPrefetcher.data p) = map Some xs ++ [None] ->
  exists p',
    CUDAPrefetcher.nexts (S (List.length xs)) p =
      Some (Some b :: map (fun x => Some (CUDAPrefetcher.device p x)) xs, p') /\
    CUDAPrefetcher.batch_data p' = None /\
    stream (CUDAPrefetcher.data p') = [] /\
    CUDAPrefetcher.original_dataloader p' = CUDAPrefetcher.original_dataloader p /\
    CUDAPrefetcher.device p' = CUDAPrefetcher.device p.
Proof.
  induction xs as [|x xs IH]; intros p b Hb Hs;
    destruct (preload_takes_head p _ _ Hs) as (p1 & Hn & Hs1 & Hb1 & Ho1 & Hd1).
  - exists p1. cbn [CUDAPrefetcher.nexts List.length map].
    unfold CUDAPrefetcher.next. rewrite Hn, Hb. repeat split; assumption.
  - destruct (IH p1 _ Hb1 Hs1) as (p' & Hr & Hb' & Hs' & Ho' & Hd').
    exists p'. cbn [List.length]. remember (S (List.length xs)) as f.
    cbn [CUDAPrefetcher.nexts]. unfold CUDAPrefetcher.next at 1.
    rewrite Hn, Hb, Hr, Hd1. repeat split; try assumption; congruence.
Qed.

End Facts.
End QueueBackedEnd.

(* ===================================================================== *)
(** * The stated properties: PrefetchGenerator *)
(* ===================================================================== *)

Import PrefetchGenerator.

(** One action of an actor on a concrete state; the state reached is
    computed before the run goes on. *)
Ltac worker_acts :=
  eapply steps_cons; [eapply step_worker; cbv; reflexivity | cbv].
Ltac consumer_acts :=
  eapply steps_cons; [eapply step_consumer; cbv; reflexivity | cbv].

(** C1, as stated, fails on an input that holds [None]: every drain of
    [1, None, 2] through a queue of capacity 2 stops with [1] alone, and such
    a drain exists, while draining the sequence directly gives all three
    items. *)
Lemma drain_of_none_item_is_cut :
  (forall n d, steps n (start [Some 1%nat; None; Some 2%nat] 2) d ->
               stopped d = true -> out d = [1%nat]) /\
  (exists n d, steps n (start [Some 1%nat; None; Some 2%nat] 2) d /\
               stopped d = true /\
               map Some (out d) <> [Some 1%nat; None; Some 2%nat]).
Proof.
  split.
  - intros n d Hst Hs.
    apply (PrefetchGeneratorFacts.drain_invariant _ _ _ _ Hst). exact Hs.
  - exists 6%nat,
      (mkDrain (mkGen [Some 2%nat] RunLoop (mkQueue 2 [])) [1%nat] true).
    split; [|split; [reflexivity|discriminate]].
    worker_acts. worker_acts. consumer_acts.
    worker_acts. worker_acts. consumer_acts.
    apply steps_refl.
Qed.

(** C1 (amended): for every finite input sequence none of whose items is
    [None], every interleaving of the worker and the consumer delivers a
    prefix of the input in order, the whole input once the consumer has seen
    the end; until then some actor can always act, and no run is longer than
    [3 * length + 3] actions. *)
Theorem prefetch_drain_keeps_order (A : Type) (xs : list A) (capacity : Z)
    (n : nat) (d : drain A) :
  steps n (start (map Some xs) capacity) d ->
  (exists rest, xs = out d ++ rest) /\
  (stopped d = true -> out d = xs) /\
  (stopped d = false -> exists d', step d d') /\
  (n <= 3 * List.length xs + 3)%nat.
Proof.
  intros Hst.
  destruct (PrefetchGeneratorFacts.drain_invariant _ _ _ _ Hst) as (H1 & H2 & H3 & H4).
  rewrite PrefetchGeneratorFacts.none_free_prefix_some in H1, H2.
  rewrite length_map in H4.
  repeat split; try assumption. lia.
Qed.

Lemma prefetch_drain_keeps_order_witness :
  let d := mkDrain (mkGen [] RunDone (mkQueue 1 [])) [7%nat; 8%nat] true in
  (exists rest, [7%nat; 8%nat] = out d ++ rest) /\
  (stopped d = true -> out d = [7%nat; 8%nat]) /\
  (stopped d = false -> exists d', step d d') /\
  (9 <= 3 * List.length [7%nat; 8%nat] + 3)%nat.
Proof.
  apply (prefetch_drain_keeps_order nat [7%nat; 8%nat] 1 9).
  worker_acts. worker_acts. worker_acts. consumer_acts. worker_acts.
  consumer_acts. worker_acts. worker_acts. consumer_acts.
  apply steps_refl.
Defined.

(** C2: for every capacity [N >= 1] and every interleaving, the queue never
    holds more than [N] items; when it holds [N], [put] waits and the worker
    cannot act unless it is fetching from the generator; and every item of
    the input is either consumed or still on its way, in order: none is
    dropped. *)
Theorem queue_never_exceeds_capacity (A : Type) (l : list (item A))
    (capacity : Z) (n : nat) (d : drain A) :
  1 <= capacity ->
  steps n (start l capacity) d ->
  Z.of_nat (List.length (items (queue (sys d)))) <= capacity /\
  (Z.of_nat (List.length (items (queue (sys d)))) = capacity ->
     (forall x, put (queue (sys d)) x = None) /\
     (pc (sys d) <> RunLoop -> run_step (sys d) = None)) /\
  consumed d ++ stream (sys d) = l ++ [None].
Proof.
  intros Hc Hst.
  destruct (PrefetchGeneratorFacts.steps_within _ _ _ Hst) as [Hw Hm].
  { unfold within_capacity; cbn. lia. }
  cbn in Hm. unfold within_capacity in Hw. rewrite Hm in Hw.
  split; [apply Hw; lia|]. split.
  - intros Hfull.
    assert (forall x, put (queue (sys d)) x = None) as Hput.
    { intros x. unfold put, full. rewrite Hm, Hfull.
      assert ((0 <? capacity) = true) as -> by (apply Z.ltb_lt; lia).
      rewrite Z.leb_refl. reflexivity. }
    split; [exact Hput|].
    intros Hpc. unfold run_step.
    destruct (pc (sys d)) as [|x| |]; [congruence| | |reflexivity];
      rewrite Hput; reflexivity.
  - apply (PrefetchGeneratorFacts.steps_conserve _ _ _ Hst).
Qed.

Lemma queue_never_exceeds_capacity_witness :
  let d := mkDrain (mkGen [Some 3%nat] (RunPut (Some 2%nat))
                          (mkQueue 1 [Some 1%nat])) [] false in
  Z.of_nat (List.length (items (queue (sys d)))) <= 1 /\
  (Z.of_nat (List.length (items (queue (sys d)))) = 1 ->
     (forall x, put (queue (sys d)) x = None) /\
     (pc (sys d) <> RunLoop -> run_step (sys d) = None)) /\
  consumed d ++ stream (sys d) = [Some 1%nat; Some 2%nat; Some 3%nat] ++ [None].
Proof.
  apply (queue_never_exceeds_capacity nat
           [Some 1%nat; Some 2%nat; Some 3%nat] 1 3).
  - lia.
  - worker_acts. worker_acts. worker_acts. apply steps_refl.
Defined.



(* ===================================================================== *)
(** * The stated properties: the prefetchers *)
(* ===================================================================== *)

(** C3: over a queue-backed loader of five batches with queue capacity 2, the
    first five calls of [CPUPrefetcher.next] return the batches in order and
    the sixth returns [None]; the seventh never returns.  Under every
    interleaving at most six calls of [__next__] return, their results are
    those six, and after them no interleaving lets a further call return:
    the worker has finished and the queue stays empty. *)
Theorem cpu_prefetcher_seventh_next_blocks (A : Type) (b1 b2 b3 b4 b5 : A) :
  let loader :=
    PrefetchDataLoader.mkLoader 2 [Some b1; Some b2; Some b3; Some b4; Some b5] in
  (exists p6,
      CPUPrefetcher.nexts 6 (CPUPrefetcher.init loader) =
        Some ([Some b1; Some b2; Some b3; Some b4; Some b5; None], p6) /\
      CPUPrefetcher.next p6 = None) /\
  CPUPrefetcher.nexts 7 (CPUPrefetcher.init loader) = None /\
  (forall rs s',
      calls (Py.py_iter loader) rs s' ->
      (List.length rs <= 6)%nat /\
      (List.length rs = 6%nat ->
         rs = [Return b1; Return b2; Return b3; Return b4; Return b5; Stop] /\
         forall r s'', ~ next_call s' r s'')).
Proof.
  intros loader. split; [|split].
  - exists (CPUPrefetcher.mk loader (mkGen [] RunDone (mkQueue 2 []))).
    split; vm_compute; reflexivity.
  - vm_compute. reflexivity.
  - intros rs s' Hc. apply PrefetchGeneratorFacts.stream_calls in Hc.
    change (stream (Py.py_iter loader))
      with [Some b1; Some b2; Some b3; Some b4; Some b5; @None A] in Hc.
    assert (List.length (map item_of rs ++ stream s') = 6%nat) as Hl
      by (rewrite <- Hc; reflexivity).
    rewrite length_app, length_map in Hl. split; [lia|].
    intros H6. assert (stream s' = []) as Hnil
      by (destruct (stream s'); [reflexivity|cbn in Hl; lia]).
    rewrite Hnil, app_nil_r in Hc. split.
    + destruct rs as [|r1 [|r2 [|r3 [|r4 [|r5 [|r6 [|r7 rs]]]]]]]; try discriminate.
      cbn in Hc. injection Hc as E1 E2 E3 E4 E5 E6.
      destruct r1, r2, r3, r4, r5, r6; cbn in *; congruence.
    + intros r s'' Hn. apply NextFacts.next_call_needs_item in Hn. contradiction.
Qed.

(** C6: after any sequence of [next] and [reset] calls on a [CUDAPrefetcher],
    over any loader (a [DataLoader] or a queue-backed [PrefetchDataLoader]),
    as far as the calls return: all that was pulled from the loader's
    iterator since the last restart has been returned to the caller in
    order, but for exactly one item, which is the staged one in [batch_data];
    one batch at most is ahead.  Every [next] returns the staged batch and
    makes exactly one call of [next(self.data)], by one [preload].  Over a
    [DataLoader] every call returns, and the batches of the loader split
    into those handed out since the last restart, then the single staged
    batch, then those still in the loader's iterator. *)
Theorem cuda_single_batch_lookahead (B : Type) (dev : B -> B)
    (cs : list CUDAPrefetcher.call) :
  (forall (L St : Type) (il : Py.Iterable L St) (it : Py.Iterator St B)
          (dl : L) p0 tr p,
      CUDAPrefetcher.init dl dev = Some p0 ->
      CUDAPrefetcher.run p0 cs = Some (tr, p) ->
      (exists pulled,
          Py.pulls (Py.py_iter dl) pulled (CUDAPrefetcher.data p) /\
          map (option_map dev) pulled =
            CUDAPrefetcher.results_since_reset tr []
            ++ [CUDAPrefetcher.batch_data p]) /\
      (forall r p',
          CUDAPrefetcher.next p = Some (r, p') ->
          r = CUDAPrefetcher.batch_data p /\
          exists x,
            Py.pulls (CUDAPrefetcher.data p) [x] (CUDAPrefetcher.data p') /\
            CUDAPrefetcher.batch_data p' = option_map dev x)) /\
  (forall dl : DataLoader.t B,
    exists p0 tr p handed upcoming,
      CUDAPrefetcher.init dl dev = Some p0 /\
      CUDAPrefetcher.run p0 cs = Some (tr, p) /\
      CUDAPrefetcher.since_reset tr [] = map dev handed /\
      dl = handed ++ upcoming /\
      CUDAPrefetcher.batch_data p = option_map dev (hd_error upcoming) /\
      CUDAPrefetcher.data p = tl upcoming /\
      (exists p', CUDAPrefetcher.next p = Some (CUDAPrefetcher.batch_data p, p') /\
         List.length (CUDAPrefetcher.data p') =
         pred (List.length (CUDAPrefetcher.data p)))).
Proof.
  split.
  - intros L St il it dl p0 tr p Hi Hr.
    unfold CUDAPrefetcher.init in Hi.
    apply GenericLookahead.preload_pulls in Hi as (x & Hx & Hb & Ho & Hd).
    cbn in Hx, Hb, Ho, Hd.
    destruct (GenericLookahead.run_one_ahead cs p0 [] tr p [x])
      as (Ho' & Hd' & pulled & Hp & Hm); [| |exact Hr|].
    + rewrite Ho. exact Hx.
    + rewrite Hd, Hb. reflexivity.
    + rewrite Ho, Hd in *. split; [exists pulled; split; assumption|].
      intros r p' Hn. apply GenericLookahead.next_pulls in Hn as [-> Hn].
      split; [reflexivity|].
      apply GenericLookahead.preload_pulls in Hn as (y & Hy & Hby & _).
      exists y. split; [exact Hy|]. rewrite Hby, Hd'. reflexivity.
  - intros dl.
    destruct (PrefetcherFacts.init_holds dl dev) as (p0 & Hi & Hp0).
    destruct (PrefetcherFacts.run_holds dl dev cs _ _ _ Hp0)
      as (tr & p & handed & u & Hr & Hp & Hs).
    destruct (PrefetcherFacts.next_holds dl dev _ _ _ Hp) as (p' & Hn & _ & Hl).
    pose proof Hp as (Hdl & Hb & Hd & _).
    exists p0, tr, p, handed, u. repeat split; try assumption.
    exists p'. rewrite Hb. split; assumption.
Qed.

Lemma cuda_single_batch_lookahead_witness :
  let loader := PrefetchDataLoader.mkLoader 2 [Some 10%nat; Some 20%nat] in
  let p :=
    CUDAPrefetcher.mk (Some 20%nat) loader (fun b => b)
      (mkGen [] RunLoop (mkQueue 2 [])) in
  let tr := [CUDAPrefetcher.Returned (Some 10%nat); CUDAPrefetcher.WasReset;
             CUDAPrefetcher.Returned (Some 10%nat)] in
  (exists pulled,
      Py.pulls (Py.py_iter loader) pulled (CUDAPrefetcher.data p) /\
      map (option_map (fun b => b)) pulled =
        CUDAPrefetcher.results_since_reset tr []
        ++ [CUDAPrefetcher.batch_data p]) /\
  (forall r p',
      CUDAPrefetcher.next p = Some (r, p') ->
      r = CUDAPrefetcher.batch_data p /\
      exists x,
        Py.pulls (CUDAPrefetcher.data p) [x] (CUDAPrefetcher.data p') /\
        CUDAPrefetcher.batch_data p' = option_map (fun b => b) x).
Proof.
  intros loader p tr.
  apply (proj1 (cuda_single_batch_lookahead nat (fun b => b)
                  [CUDAPrefetcher.Next; CUDAPrefetcher.Reset; CUDAPrefetcher.Next])
           _ _ _ _ loader
           (CUDAPrefetcher.mk (Some 10%nat) loader (fun b => b)
              (mkGen [Some 20%nat] RunLoop (mkQueue 2 [])))
           tr p); vm_compute; reflexivity.
Defined.

(** Over a [DataLoader], whose iterator keeps raising [StopIteration]: once
    staging has found no further batch, [next] returns [None], and so does
    every later call, none of them raising, until [reset], which stages the
    first batch of the loader again. *)
Theorem cuda_none_until_reset (B : Type) (dl : DataLoader.t B) (dev : B -> B)
    (cs : list CUDAPrefetcher.call) p0 tr p (n : nat) :
  CUDAPrefetcher.init dl dev = Some p0 ->
  CUDAPrefetcher.run p0 cs = Some (tr, p) ->
  CUDAPrefetcher.batch_data p = None ->
  exists p' p'',
    CUDAPrefetcher.nexts n p = Some (repeat None n, p') /\
    CUDAPrefetcher.batch_data p' = None /\
    CUDAPrefetcher.reset p' = Some p'' /\
    CUDAPrefetcher.batch_data p'' = option_map dev (hd_error dl).
Proof.
  intros Hi Hr Hb.
  destruct (PrefetcherFacts.init_holds dl dev) as (q0 & Hi' & Hp0).
  rewrite Hi in Hi'. injection Hi' as <-.
  destruct (PrefetcherFacts.run_holds dl dev cs _ _ _ Hp0)
    as (tr1 & p1 & handed & u & Hr' & Hp & _).
  rewrite Hr in Hr'. injection Hr' as <- <-.
  assert (u = []) as ->.
  { destruct Hp as (_ & Hu & _). rewrite Hb in Hu.
    destruct u; [reflexivity|discriminate]. }
  destruct (PrefetcherFacts.nexts_at_end dl dev n _ _ Hp) as (p' & Hn & Hp').
  destruct (PrefetcherFacts.reset_holds dl dev _ _ _ Hp') as (p'' & Hre & Hp'').
  exists p', p''. repeat split; try assumption.
  - apply Hp'.
  - apply Hp''.
Qed.

Lemma cuda_none_until_reset_witness :
  exists p' p'',
    CUDAPrefetcher.nexts 3
      (CUDAPrefetcher.mk None [10%nat; 20%nat] (fun b => b) []) =
      Some (repeat None 3, p') /\
    CUDAPrefetcher.batch_data p' = None /\
    CUDAPrefetcher.reset p' = Some p'' /\
    CUDAPrefetcher.batch_data p'' = option_map (fun b => b) (hd_error [10%nat; 20%nat]).
Proof.
  apply (cuda_none_until_reset nat [10%nat; 20%nat] (fun b => b)
           [CUDAPrefetcher.Next; CUDAPrefetcher.Next]
           (CUDAPrefetcher.mk (Some 10%nat) [10%nat; 20%nat] (fun b => b) [20%nat])
           [CUDAPrefetcher.Returned (Some 10%nat); CUDAPrefetcher.Returned (Some 20%nat)]
           (CUDAPrefetcher.mk None [10%nat; 20%nat] (fun b => b) [])
           3%nat); reflexivity.
Defined.

(** The loaders over which a drain comes back and is replayed: over a
    [DataLoader], draining a [CPUPrefetcher] or a [CUDAPrefetcher] with
    [next] until it returns [None], calling [reset] and draining again gives
    the batches of the loader, in order, both times; so does a
    [CPUPrefetcher] over a queue-backed loader none of whose batches is
    [None]. *)
Theorem reset_then_drain_replays (B : Type) (dl : DataLoader.t B)
    (dev : B -> B) (capacity : Z) :
  (exists p1 p2,
      CPUPrefetcher.drain (S (DataLoader.len dl)) (CPUPrefetcher.init dl) =
        Some (dl, p1) /\
      CPUPrefetcher.drain (S (DataLoader.len dl)) (CPUPrefetcher.reset p1) =
        Some (dl, p2)) /\
  (exists p0 p1 p1' p2,
      CUDAPrefetcher.init dl dev = Some p0 /\
      CUDAPrefetcher.drain (S (DataLoader.len dl)) p0 = Some (map dev dl, p1) /\
      CUDAPrefetcher.reset p1 = Some p1' /\
      CUDAPrefetcher.drain (S (DataLoader.len dl)) p1' = Some (map dev dl, p2)) /\
  (exists p1 p2,
      let loader := PrefetchDataLoader.mkLoader capacity (map Some dl) in
      CPUPrefetcher.drain (S (List.length dl)) (CPUPrefetcher.init loader) =
        Some (dl, p1) /\
      CPUPrefetcher.drain (S (List.length dl)) (CPUPrefetcher.reset p1) =
        Some (dl, p2)).
Proof.
  split; [|split].
  - exists (CPUPrefetcher.mk dl []), (CPUPrefetcher.mk dl []).
    split; apply PrefetcherFacts.cpu_drain_list.
  - destruct (PrefetcherFacts.init_holds dl dev) as (p0 & Hi & Hp0).
    destruct (PrefetcherFacts.drain_holds dl dev dl _ _ Hp0) as (p1 & Hd1 & Hp1).
    destruct (PrefetcherFacts.reset_holds dl dev _ _ _ Hp1) as (p1' & Hre & Hp1').
    destruct (PrefetcherFacts.drain_holds dl dev dl _ _ Hp1') as (p2 & Hd2 & _).
    exists p0, p1, p1', p2. repeat split; assumption.
  - set (loader := PrefetchDataLoader.mkLoader capacity (map Some dl)).
    destruct (QueueBackedFacts.cpu_drain_stream dl (CPUPrefetcher.init loader) [])
      as (p1 & Hd1 & _ & Ho1); [reflexivity|].
    destruct (QueueBackedFacts.cpu_drain_stream dl (CPUPrefetcher.reset p1) [])
      as (p2 & Hd2 & _).
    { unfold CPUPrefetcher.reset. cbn [CPUPrefetcher.data]. rewrite Ho1. reflexivity. }
    exists p1, p2. split; assumption.
Qed.

(** C7: over a queue-backed loader the behaviour stated does not hold.  A
    [CUDAPrefetcher] over a [PrefetchDataLoader] with batches [xs], none of
    them [None], and any capacity hands out the batches; staging has then
    found no further batch ([batch_data] is [None]), and the call of [next]
    that follows never returns: [preload] waits in [queue.get()], and under no
    interleaving does that call come back. *)
Theorem cuda_next_blocks_once_staging_found_the_end (A : Type) (xs : list A)
    (capacity : Z) (dev : A -> A) :
  exists p0 p',
    CUDAPrefetcher.init (PrefetchDataLoader.mkLoader capacity (map Some xs)) dev
      = Some p0 /\
    CUDAPrefetcher.nexts (List.length xs) p0 =
      Some (map (fun x => Some (dev x)) xs, p') /\
    CUDAPrefetcher.batch_data p' = None /\
    CUDAPrefetcher.next p' = None /\
    (forall r s', ~ next_call (CUDAPrefetcher.data p') r s').
Proof.
  set (loader := PrefetchDataLoader.mkLoader capacity (map Some xs)).
  set (q := CUDAPrefetcher.mk None loader dev (Py.py_iter loader)).
  assert (stream (CUDAPrefetcher.data q) = map Some xs ++ [None]) as Hq
    by reflexivity.
  destruct xs as [|x xs]; cbn [map app] in Hq;
    destruct (QueueBackedEnd.preload_takes_head q _ _ Hq)
      as (p0 & Hi & Hs & Hb & Ho & Hd); cbn in Hb, Hd.
  - exists p0, p0. split; [exact Hi|]. split; [reflexivity|].
    split; [exact Hb|]. split.
    + unfold CUDAPrefetcher.next.
      rewrite (QueueBackedEnd.preload_blocks p0 Hs). reflexivity.
    + intros r s' Hn. apply NextFacts.next_call_needs_item in Hn. contradiction.
  - destruct (QueueBackedEnd.nexts_to_end xs p0 _ Hb Hs)
      as (p' & Hn & Hb' & Hs' & _ & _).
    exists p0, p'. split; [exact Hi|]. rewrite Hd in Hn.
    split; [exact Hn|]. split; [exact Hb'|]. split.
    + unfold CUDAPrefetcher.next.
      rewrite (QueueBackedEnd.preload_blocks p' Hs'). reflexivity.
    + intros r s' Hc. apply NextFacts.next_call_needs_item in Hc. contradiction.
Qed.

(** C9: over a queue-backed loader the behaviour stated does not hold for a
    [CUDAPrefetcher].  Over a [PrefetchDataLoader] with batches [xs], none of
    them [None], and any capacity, the first drain never returns, whatever
    the fuel: the call that should return [None] waits for ever.  A caller
    that counts the batches instead, calls [reset] and drains then, is left
    waiting in the same way. *)
Theorem cuda_drain_over_queue_never_returns (A : Type) (xs : list A)
    (capacity : Z) (dev : A -> A) (fuel : nat) :
  exists p0 p' p1,
    CUDAPrefetcher.init (PrefetchDataLoader.mkLoader capacity (map Some xs)) dev
      = Some p0 /\
    CUDAPrefetcher.drain fuel p0 = None /\
    CUDAPrefetcher.nexts (List.length xs) p0 =
      Some (map (fun x => Some (dev x)) xs, p') /\
    CUDAPrefetcher.reset p' = Some p1 /\
    CUDAPrefetcher.drain fuel p1 = None.
Proof.
  set (loader := PrefetchDataLoader.mkLoader capacity (map Some xs)).
  set (q := CUDAPrefetcher.mk None loader dev (Py.py_iter loader)).
  assert (stream (CUDAPrefetcher.data q) = map Some xs ++ [None]) as Hq
    by reflexivity.
  assert (forall bd,
            stream (CUDAPrefetcher.data
                      (CUDAPrefetcher.mk bd loader dev (Py.py_iter loader)))
            = map Some xs ++ [None]) as Hfresh by reflexivity.
  destruct xs as [|x xs]; cbn [map app] in Hq, Hfresh;
    destruct (QueueBackedEnd.preload_takes_head q _ _ Hq)
      as (p0 & Hi & Hs & Hb & Ho & Hd); cbn in Hb, Ho, Hd.
  - destruct (QueueBackedEnd.preload_takes_head _ _ _
                (Hfresh (CUDAPrefetcher.batch_data p0)))
      as (p1 & Hi1 & Hs1 & _).
    exists p0, p0, p1. split; [exact Hi|].
    split; [apply QueueBackedEnd.drain_blocks_at_end; exact Hs|].
    split; [reflexivity|]. split.
    + unfold CUDAPrefetcher.reset. rewrite Ho, Hd. exact Hi1.
    + apply QueueBackedEnd.drain_blocks_at_end; exact Hs1.
  - destruct (QueueBackedEnd.nexts_to_end xs p0 _ Hb Hs)
      as (p' & Hn & _ & _ & Ho' & Hd').
    destruct (QueueBackedEnd.preload_takes_head _ _ _
                (Hfresh (CUDAPrefetcher.batch_data p')))
      as (p1 & Hi1 & Hs1 & Hb1 & _). cbn in Hb1.
    exists p0, p', p1. split; [exact Hi|].
    split; [eapply QueueBackedEnd.drain_blocks; eassumption|].
    rewrite Hd in Hn. split; [exact Hn|]. split.
    + unfold CUDAPrefetcher.reset. rewrite Ho', Hd', Ho, Hd. exact Hi1.
    + eapply QueueBackedEnd.drain_blocks; eassumption.
Qed.

(* ===================================================================== *)
(** * The stated properties: the datasets *)
(* ===================================================================== *)

(** C4, as stated, fails: in [Train] mode, on a 32 x 32 pair with crop size
    41, [random_crop] raises [CropTooLarge], yet [__getitem__] returns the
    sample, not cropped, after printing the index and the image. *)
Lemma getitem_oversized_crop_returns_sample :
  @random_crop _ _ _ ShapeModel.matlab (32, 32) (32, 32) 41 Examples.world0 =
    (inl Exn.CropTooLarge, Examples.world0) /\
  @TrainValidImageDataset.getitem _ _ _ ShapeModel.matlab
      Examples.small_train 0 Examples.world0 =
    (inr (TrainValidImageDataset.mkSample (32, 32) (32, 32)),
     Eff.mkWorld [] [(0, (32, 32))]) /\
  fst (@TrainValidImageDataset.getitem _ _ _ ShapeModel.matlab
         Examples.small_train 0 Examples.world0) <> inl Exn.CropTooLarge.
Proof. split; [reflexivity|]. split; [reflexivity|]. discriminate. Qed.

(** C4 (amended): in [Train] mode, when [random_crop] raises for the pair at
    the index, [__getitem__] catches the exception, prints the index and the
    low-resolution image, and goes on with the pair as it was read, not
    cropped: its result is that of the rotation, the flips and the tensor
    conversion on that pair. *)
Theorem getitem_train_keeps_uncropped_pair (rng image tensor : Type)
    (ip : Imgproc rng image tensor) (self : TrainValidImageDataset.t image)
    (batch_index : Z) (lr_y hr_y : image) (e : Exn.t)
    (w w1 : Eff.world rng image) :
  TrainValidImageDataset.mode self = "Train"%string ->
  PyList.index (TrainValidImageDataset.lr_datasets self) batch_index = inr lr_y ->
  PyList.index (TrainValidImageDataset.hr_datasets self) batch_index = inr hr_y ->
  random_crop lr_y hr_y (TrainValidImageDataset.image_size self) w = (inl e, w1) ->
  TrainValidImageDataset.getitem self batch_index w =
  TrainValidImageDataset.uncropped_train_sample lr_y hr_y
    (Eff.mkWorld (Eff.rand w1) (Eff.stdout w1 ++ [(batch_index, lr_y)])).
Proof.
  intros Hm Hl Hh Hc.
  unfold TrainValidImageDataset.getitem,
    TrainValidImageDataset.uncropped_train_sample,
    Eff.bind, Eff.lift, Eff.try_except, Eff.print, Eff.ret.
  rewrite Hl, Hh, Hm.
  change ("Train" =? "Train")%string with true. cbv beta iota.
  rewrite Hc.
  set (w2 := Eff.mkWorld (Eff.rand w1) (Eff.stdout w1 ++ [(batch_index, lr_y)])).
  destruct (random_rotate lr_y hr_y [0; 90; 180; 270] w2) as [[e1|[l1 h1]] w3];
    [reflexivity|].
  destruct (random_horizontally_flip l1 h1 (1 # 2) w3) as [[e2|[l2 h2]] w4];
    [reflexivity|].
  destruct (random_vertically_flip l2 h2 (1 # 2) w4) as [[e3|[l3 h3]] w5];
    reflexivity.
Qed.

Lemma getitem_train_keeps_uncropped_pair_witness :
  @TrainValidImageDataset.getitem _ _ _ ShapeModel.matlab
      Examples.small_train 0 Examples.world0 =
  @TrainValidImageDataset.uncropped_train_sample _ _ _ ShapeModel.matlab
      (32, 32) (32, 32)
      (Eff.mkWorld (Eff.rand Examples.world0)
                   (Eff.stdout Examples.world0 ++ [(0, (32, 32))])).
Proof.
  apply (getitem_train_keeps_uncropped_pair _ _ _ ShapeModel.matlab
           Examples.small_train 0 (32, 32) (32, 32) Exn.CropTooLarge
           Examples.world0 Examples.world0); reflexivity.
Defined.

(** C5, as stated, fails: over an empty directory the construction succeeds
    with scale factor 0 and with scale factor -3; over a directory with one
    image and scale factor 0 it fails, but with [ZeroDivisionError]. *)
Lemma test_dataset_accepts_scale_below_one :
  @TestImageDataset.init _ _ _ ShapeModel.matlab
      (ShapeModel.files Examples.empty_dir) "data/Set5/GTmod12" 0 Examples.world0 =
    (inr (TestImageDataset.mk [] 0 [] []), Examples.world0) /\
  @TestImageDataset.init _ _ _ ShapeModel.matlab
      (ShapeModel.files Examples.empty_dir) "data/Set5/GTmod12" (-3) Examples.world0 =
    (inr (TestImageDataset.mk [] (-3) [] []), Examples.world0) /\
  @TestImageDataset.init _ _ _ ShapeModel.matlab
      (ShapeModel.files (Examples.one_image 64 64)) "data/Set5/GTmod12" 0
      Examples.world0 =
    (inl Exn.ZeroDivisionError, Examples.world0) /\
  Exn.ZeroDivisionError <> Exn.InvalidScaleFactor.
Proof. repeat split; try reflexivity. discriminate. Qed.

(** C5 (amended): [TestImageDataset.__init__] makes no check of the scale
    factor.  Over an empty directory it succeeds for every scale factor; with
    scale factor 0 over a directory whose first file is a readable image it
    fails at construction time with [ZeroDivisionError], raised by
    [1 / self.upscale_factor]. *)
Theorem test_dataset_scale_is_not_checked (rng image tensor : Type)
    (ip : Imgproc rng image tensor) (fs : Files image)
    (dir : string) (scale : Z) (w : Eff.world rng image) :
  (listdir dir = Some [] ->
     TestImageDataset.init dir scale w =
       (inr (TestImageDataset.mk [] scale [] []), w)) /\
  (forall name names img,
     listdir dir = Some (name :: names) ->
     imread (PyList.path_join dir name) = Some img ->
     scale = 0 ->
     TestImageDataset.init dir scale w = (inl Exn.ZeroDivisionError, w)).
Proof.
  split.
  - intros Hl. unfold TestImageDataset.init, Eff.bind, Eff.lift.
    rewrite Hl. reflexivity.
  - intros name names img Hl Hr ->.
    unfold TestImageDataset.init, TestImageDataset.read_image_to_memory,
      Eff.bind, Eff.lift.
    rewrite Hl. cbn [map TestImageDataset.image_file_names TestImageDataset.read_images].
    unfold Eff.bind, TestImageDataset.read_one, Eff.bind, Eff.lift.
    rewrite Hr. reflexivity.
Qed.

Lemma test_dataset_scale_is_not_checked_witness :
  @TestImageDataset.init _ _ _ ShapeModel.matlab
      (ShapeModel.files Examples.empty_dir) "data/Set5/GTmod12" (-3)
      Examples.world0 =
    (inr (TestImageDataset.mk [] (-3) [] []), Examples.world0) /\
  @TestImageDataset.init _ _ _ ShapeModel.matlab
      (ShapeModel.files (Examples.one_image 64 64)) "data/Set5/GTmod12" 0
      Examples.world0 =
    (inl Exn.ZeroDivisionError, Examples.world0).
Proof.
  split.
  - apply (test_dataset_scale_is_not_checked _ _ _ ShapeModel.matlab
             (ShapeModel.files Examples.empty_dir)
             "data/Set5/GTmod12" (-3) Examples.world0).
    reflexivity.
  - apply (proj2 (test_dataset_scale_is_not_checked _ _ _ ShapeModel.matlab
                    (ShapeModel.files (Examples.one_image 64 64))
                    "data/Set5/GTmod12" 0 Examples.world0)
             "baby.png"%string [] (64, 64)); reflexivity.
Defined.

(** ** Resampling down and up again *)


(** The reciprocal of a power of two is a float: the division is exact. *)
Lemma float_inverse_power_of_two (k : Z) :
  0 <= k <= 1021 ->
  (TestImageDataset.float_inverse (2 ^ k) == 1 / inject_Z (2 ^ k))%Q.
Proof.
  intros Hk. assert (0 < 2 ^ k) as Hp by (apply Z.pow_pos_nonneg; lia).
  unfold TestImageDataset.float_inverse, TestImageDataset.round_half_even.
  rewrite Z.abs_eq by lia. rewrite Z.log2_pow2 by lia.
  rewrite Z.min_l by lia.
  replace (2 ^ (k + 53)) with (2 ^ 53 * 2 ^ k) by (rewrite Z.pow_add_r; lia).
  rewrite Z.div_mul, Z.mod_mul by lia.
  assert ((2 * 0 <? 2 ^ k) = true) as -> by (apply Z.ltb_lt; lia).
  rewrite Z.sgn_pos by lia.
  assert (0 < 2 ^ 53) as H53 by (apply Z.pow_pos_nonneg; lia).
  unfold Qeq, Qdiv, Qmult, Qinv, inject_Z. cbn [Qnum Qden].
  destruct (2 ^ k) as [|q|q] eqn:E; try lia.
  cbn [Qnum Qden Z.mul Pos.mul].
  rewrite Z2Pos.id by (apply Z.mul_pos_pos; lia).
  destruct (2 ^ 53) as [|c|c]; lia.
Qed.





(** The scenario of the specification, through the constructor: one
    64 x 64 image at scale factor 2. *)
Example synthetic_64_scale_2 :
  @TestImageDataset.init _ _ _ ShapeModel.matlab
      (ShapeModel.files (Examples.one_image 64 64)) "data/Set5/GTmod12" 2
      Examples.world0 =
    (inr (TestImageDataset.mk ["data/Set5/GTmod12/baby.png"%string] 2
            [(64, 64)] [(64, 64)]),
     Examples.world0).
Proof. vm_compute. reflexivity. Qed.

(* ===================================================================== *)
(** * Further properties: the worker thread and the queue *)
(* ===================================================================== *)

Module WorkerFacts.
Section Facts.
Context {A : Type}.
Implicit Types (g its : list (item A)).

Lemma put_unbounded capacity its (x : item A) :
  capacity <= 0 ->
  put (mkQueue capacity its) x = Some (mkQueue capacity (its ++ [x])).
Proof.
  intros Hc. unfold put, full; cbn.
  assert ((0 <? capacity) = false) as -> by (apply Z.ltb_ge; lia).
  reflexivity.
Qed.

Lemma put_free_slot capacity its (x : item A) :
  Z.of_nat (List.length its) < capacity ->
  put (mkQueue capacity its) x = Some (mkQueue capacity (its ++ [x])).
Proof.
  intros Hc. unfold put, full; cbn.
  assert ((capacity <=? Z.of_nat (List.length its)) = false) as ->
    by (apply Z.leb_gt; lia).
  rewrite andb_false_r. reflexivity.
Qed.

Lemma put_full capacity its (x : item A) :
  0 < capacity -> Z.of_nat (List.length its) = capacity ->
  put (mkQueue capacity its) x = None.
Proof.
  intros H0 Hc. unfold put, full; cbn.
  assert ((0 <? capacity) = true) as -> by (apply Z.ltb_lt; lia).
  rewrite Hc, Z.leb_refl. reflexivity.
Qed.

(** With an unbounded queue the worker goes through the whole generator. *)
Lemma worker_runs_unbounded capacity g : forall its,
  capacity <= 0 ->
  worker_runs (2 * List.length g + 2) (mkGen g RunLoop (mkQueue capacity its)) =
  mkGen [] RunDone (mkQueue capacity (its ++ g ++ [None])).
Proof.
  induction g as [|x g IH]; intros its Hc.
  - cbn [List.length Nat.mul Nat.add worker_runs run_step pc generator queue].
    rewrite put_unbounded by assumption. reflexivity.
  - replace (2 * List.length (x :: g) + 2)%nat
      with (S (S (2 * List.length g + 2))) by (cbn [List.length]; lia).
    cbn [worker_runs run_step pc generator queue].
    rewrite put_unbounded by assumption.
    rewrite IH by assumption. rewrite <- app_assoc. reflexivity.
Qed.

(** With [c] free slots and [c] items at least left in the generator, the
    worker fills the queue, fetches once more and waits in [put]. *)
Lemma worker_runs_until_full capacity (c : nat) : forall g its fuel,
  0 < capacity ->
  Z.of_nat (List.length its) + Z.of_nat c = capacity ->
  (c <= List.length g)%nat ->
  (2 * c + 1 <= fuel)%nat ->
  worker_runs fuel (mkGen g RunLoop (mkQueue capacity its)) =
  mkGen (skipn (S c) g) (holding g c) (mkQueue capacity (its ++ firstn c g)).
Proof.
  induction c as [|c IH]; intros g its fuel H0 Hc Hg Hf.
  - destruct fuel as [|fuel]; [lia|].
    cbn [worker_runs run_step pc generator queue].
    rewrite app_nil_r.
    destruct g as [|x g]; cbn [skipn holding nth_error].
    + destruct fuel as [|fuel]; [reflexivity|].
      cbn [worker_runs run_step pc generator queue].
      rewrite put_full by lia. reflexivity.
    + destruct fuel as [|fuel]; [reflexivity|].
      cbn [worker_runs run_step pc generator queue].
      rewrite put_full by lia. reflexivity.
  - destruct g as [|x g]; [cbn in Hg; lia|].
    destruct fuel as [|[|fuel]]; [lia|lia|].
    cbn [worker_runs run_step pc generator queue].
    rewrite put_free_slot by lia.
    cbn [List.length] in Hg.
    rewrite (IH g (its ++ [x]) fuel); [| assumption | | lia | lia].
    + cbn [skipn firstn holding nth_error]. rewrite <- app_assoc. reflexivity.
    + rewrite length_app. cbn [List.length]. lia.
Qed.

Lemma holding_blocked g (c : nat) capacity its s :
  0 < capacity -> Z.of_nat (List.length its) = capacity ->
  run_step (mkGen s (holding g c) (mkQueue capacity its)) = None /\
  holding g c <> RunDone /\ holding g c <> RunLoop.
Proof.
  intros H0 Hc. unfold holding.
  destruct (nth_error g c); cbn [run_step pc queue];
    rewrite put_full by assumption; repeat split; discriminate.
Qed.

(** Lists that agree on a prefix of the same length agree on the rest. *)
Lemma app_same_length {X} (a b c e : list X) :
  a ++ c = b ++ e -> List.length a = List.length b -> a = b /\ c = e.
Proof.
  revert b. induction a as [|x a IH]; intros [|y b] E L; try discriminate.
  - split; [reflexivity|assumption].
  - cbn in E. injection E as -> E. injection L as L.
    destruct (IH b E L) as [-> ->]. split; reflexivity.
Qed.

Lemma item_of_injective (rs1 rs2 : list (next_result A)) :
  map item_of rs1 = map item_of rs2 -> rs1 = rs2.
Proof.
  revert rs2. induction rs1 as [|r rs1 IH]; intros [|r' rs2] E; try discriminate.
  - reflexivity.
  - cbn in E. injection E as E1 E2. rewrite (IH _ E2).
    destruct r, r'; cbn in E1; congruence.
Qed.

End Facts.
End WorkerFacts.

(** X1: with [num_data_prefetch_queue <= 0] the queue is unbounded: left
    alone, the worker fetches the whole input and the sentinel into the queue
    in [2 * length + 2] actions and finishes, never waiting. *)
Theorem unbounded_queue_prefetches_everything (A : Type) (l : list (item A))
    (capacity : Z) :
  capacity <= 0 ->
  worker_runs (2 * List.length l + 2) (init l capacity) =
  mkGen [] RunDone (mkQueue capacity (l ++ [None])).
Proof.
  intros Hc. unfold init.
  rewrite WorkerFacts.worker_runs_unbounded by assumption. reflexivity.
Qed.

Lemma unbounded_queue_prefetches_everything_witness :
  worker_runs (2 * List.length [Some 1%nat; Some 2%nat; Some 3%nat] + 2)
              (init [Some 1%nat; Some 2%nat; Some 3%nat] 0) =
  mkGen [] RunDone (mkQueue 0 ([Some 1%nat; Some 2%nat; Some 3%nat] ++ [None])).
Proof.
  apply (unbounded_queue_prefetches_everything nat
           [Some 1%nat; Some 2%nat; Some 3%nat] 0). lia.
Defined.

(** X2: a worker whose queue nobody reads, over an input of at least [n]
    items with capacity [n >= 1], puts the first [n] items, fetches the next
    one (or reaches the end) and then waits in [put] for ever: however long it
    is let run it stays there, holding that item, and [run] never returns. *)
Theorem abandoned_worker_waits_in_put (A : Type) (l : list (item A))
    (n fuel : nat) :
  (1 <= n <= List.length l)%nat ->
  (2 * n + 1 <= fuel)%nat ->
  let s := worker_runs fuel (init l (Z.of_nat n)) in
  s = mkGen (skipn (S n) l) (holding l n) (mkQueue (Z.of_nat n) (firstn n l)) /\
  run_step s = None /\
  pc s <> RunDone.
Proof.
  intros Hn Hf s. assert (s = mkGen (skipn (S n) l) (holding l n)
                                   (mkQueue (Z.of_nat n) (firstn n l))) as E.
  { subst s. unfold init.
    rewrite (WorkerFacts.worker_runs_until_full (Z.of_nat n) n l [] fuel);
      try lia; reflexivity. }
  split; [exact E|]. rewrite E.
  destruct (WorkerFacts.holding_blocked l n (Z.of_nat n) (firstn n l) (skipn (S n) l))
    as (H1 & H2 & _); [lia | rewrite firstn_length_le; lia |].
  split; assumption.
Qed.

Lemma abandoned_worker_waits_in_put_witness :
  let s := worker_runs 50 (init [Some 1%nat; Some 2%nat; Some 3%nat] (Z.of_nat 2)) in
  s = mkGen (skipn 3 [Some 1%nat; Some 2%nat; Some 3%nat])
            (holding [Some 1%nat; Some 2%nat; Some 3%nat] 2)
            (mkQueue (Z.of_nat 2) (firstn 2 [Some 1%nat; Some 2%nat; Some 3%nat])) /\
  run_step s = None /\
  pc s <> RunDone.
Proof.
  apply (abandoned_worker_waits_in_put nat
           [Some 1%nat; Some 2%nat; Some 3%nat] 2 50); cbn; lia.
Defined.

(** X3: under every interleaving with capacity [N >= 1], the items the
    worker has taken from the generator and the consumer has not yet taken
    from the queue number [N + 1] at most: [N] in the queue and one in the
    worker's hand. *)
Theorem prefetch_depth_is_bounded (A : Type) (l : list (item A))
    (capacity : Z) (n : nat) (d : drain A) :
  1 <= capacity ->
  steps n (start l capacity) d ->
  Z.of_nat (List.length l) <=
    Z.of_nat (List.length (generator (sys d)))
    + Z.of_nat (List.length (consumed d)) + capacity + 1.
Proof.
  intros Hc Hst.
  destruct (PrefetchGeneratorFacts.steps_within _ _ _ Hst) as [Hw Hm].
  { unfold within_capacity; cbn. lia. }
  cbn in Hm. unfold within_capacity in Hw. rewrite Hm in Hw.
  pose proof (Hw ltac:(lia)) as Hq.
  pose proof (PrefetchGeneratorFacts.steps_conserve _ _ _ Hst) as Hcons.
  change (consumed (start l capacity) ++ stream (sys (start l capacity)))
    with (l ++ [@None A]) in Hcons.
  apply (f_equal (@List.length _)) in Hcons.
  unfold stream in Hcons. rewrite !length_app in Hcons. cbn [List.length] in Hcons.
  destruct (pc (sys d)); cbn [List.length] in Hcons;
    rewrite ?length_app in Hcons; cbn [List.length] in Hcons; lia.
Qed.

Lemma prefetch_depth_is_bounded_witness :
  let d := mkDrain (mkGen [Some 3%nat] (RunPut (Some 2%nat))
                          (mkQueue 1 [Some 1%nat])) [] false in
  Z.of_nat (List.length [Some 1%nat; Some 2%nat; Some 3%nat]) <=
    Z.of_nat (List.length (generator (sys d)))
    + Z.of_nat (List.length (consumed d)) + 1 + 1.
Proof.
  apply (prefetch_depth_is_bounded nat
           [Some 1%nat; Some 2%nat; Some 3%nat] 1 3).
  - lia.
  - worker_acts. worker_acts. worker_acts. apply steps_refl.
Defined.

(** X4: what the consumer gets does not depend on how the threads are
    scheduled: two runs of the same number of [__next__] calls from the same
    state return the same results and leave the same items to deliver. *)
Theorem next_results_are_schedule_independent (A : Type) (s s1 s2 : t A)
    (rs1 rs2 : list (next_result A)) :
  calls s rs1 s1 ->
  calls s rs2 s2 ->
  List.length rs1 = List.length rs2 ->
  rs1 = rs2 /\ stream s1 = stream s2.
Proof.
  intros H1 H2 Hl.
  apply PrefetchGeneratorFacts.stream_calls in H1, H2.
  rewrite H1 in H2.
  destruct (WorkerFacts.app_same_length _ _ _ _ H2) as [E1 E2].
  { rewrite !length_map. assumption. }
  split; [apply WorkerFacts.item_of_injective|]; assumption.
Qed.

Lemma next_results_are_schedule_independent_witness :
  [Return 1%nat] = [Return 1%nat] /\
  stream (mkGen [Some 2%nat] RunLoop (mkQueue 2 [])) =
  stream (mkGen [] RunLoop (mkQueue 2 [Some 2%nat])).
Proof.
  apply (next_results_are_schedule_independent nat
           (init [Some 1%nat; Some 2%nat] 2)
           (mkGen [Some 2%nat] RunLoop (mkQueue 2 []))
           (mkGen [] RunLoop (mkQueue 2 [Some 2%nat]))
           [Return 1%nat] [Return 1%nat]).
  - eapply calls_cons; [|apply calls_nil].
    eapply next_wait; [reflexivity|].
    eapply next_wait; [reflexivity|].
    apply next_now. reflexivity.
  - eapply calls_cons; [|apply calls_nil].
    eapply next_wait; [reflexivity|].
    eapply next_wait; [reflexivity|].
    eapply next_wait; [reflexivity|].
    eapply next_wait; [reflexivity|].
    apply next_now. reflexivity.
  - reflexivity.
Defined.

(* ===================================================================== *)
(** * Further properties: the prefetchers *)
(* ===================================================================== *)

Module PrefetcherSequences.

Section QueueBacked.
Context {A : Type}.
Local Abbreviation cpu :=
  (CPUPrefetcher.t (PrefetchDataLoader.t A) (PrefetchGenerator.t A)).

(** [CPUPrefetcher.next] called once per item still to be delivered. *)
Lemma cpu_nexts_stream (its : list (item A)) : forall (p : cpu) rest,
  stream (CPUPrefetcher.data p) = its ++ rest ->
  exists p', CPUPrefetcher.nexts (List.length its) p = Some (its, p') /\
             stream (CPUPrefetcher.data p') = rest.
Proof.
  induction its as [|x its IH]; intros p rest Hs.
  - exists p. split; [reflexivity|assumption].
  - pose proof (QueueBackedFacts.cpu_next_stream p) as Hn.
    cbn [app] in Hs. rewrite Hs in Hn. destruct Hn as (p1 & Hn & Hs1 & _).
    destruct (IH p1 rest Hs1) as (p' & Hd & Hs').
    exists p'. cbn [List.length CPUPrefetcher.nexts]. rewrite Hn, Hd.
    split; [reflexivity|assumption].
Qed.

End QueueBacked.

Section Plain.
Context {B : Type}.
Variable dl : DataLoader.t B.
Variable dev : B -> B.

Lemma cpu_nexts_list (u : list B) (k : nat) : forall (o : DataLoader.t B),
  CPUPrefetcher.nexts (List.length u + k) (CPUPrefetcher.mk o u) =
  Some (map Some u ++ repeat None k, CPUPrefetcher.mk o []).
Proof.
  induction u as [|b u IH]; intros o.
  - cbn [List.length Nat.add map app]. induction k as [|k IHk]; [reflexivity|].
    cbn [CPUPrefetcher.nexts repeat]. unfold CPUPrefetcher.next at 1; cbn.
    rewrite IHk. reflexivity.
  - cbn [List.length Nat.add CPUPrefetcher.nexts map app].
    unfold CPUPrefetcher.next at 1; cbn. rewrite IH. reflexivity.
Qed.

Lemma cpu_nexts_data (n : nat) : forall (p : CPUPrefetcher.t (DataLoader.t B) (list B)),
  exists rs p',
    CPUPrefetcher.nexts n p = Some (rs, p') /\
    CPUPrefetcher.original_dataloader p' = CPUPrefetcher.original_dataloader p.
Proof.
  induction n as [|n IH]; intros p.
  - exists [], p. split; reflexivity.
  - destruct p as [o [|b u]].
    + destruct (IH (CPUPrefetcher.mk o [])) as (rs & p' & Hn & Ho).
      exists (None :: rs), p'. cbn [CPUPrefetcher.nexts].
      unfold CPUPrefetcher.next at 1; cbn. rewrite Hn. split; [reflexivity|exact Ho].
    + destruct (IH (CPUPrefetcher.mk o u)) as (rs & p' & Hn & Ho).
      exists (Some b :: rs), p'. cbn [CPUPrefetcher.nexts].
      unfold CPUPrefetcher.next at 1; cbn. rewrite Hn. split; [reflexivity|exact Ho].
Qed.

Lemma cuda_nexts_holds (u : list B) (k : nat) : forall handed p,
  Lookahead.holds dl dev handed u p ->
  exists p',
    CUDAPrefetcher.nexts (List.length u + k) p =
      Some (map (fun b => Some (dev b)) u ++ repeat None k, p') /\
    Lookahead.holds dl dev (handed ++ u) [] p'.
Proof.
  induction u as [|b u IH]; intros handed p Hp.
  - destruct (PrefetcherFacts.nexts_at_end dl dev k _ _ Hp) as (p' & Hn & Hp').
    exists p'. rewrite app_nil_r. split; assumption.
  - destruct (PrefetcherFacts.next_holds dl dev _ _ _ Hp) as (p1 & Hn & Hp1 & _).
    cbn [tl firstn] in Hp1.
    destruct (IH _ _ Hp1) as (p' & Hr & Hp').
    exists p'. cbn [List.length Nat.add CUDAPrefetcher.nexts map app].
    rewrite Hn. cbn [option_map hd_error]. rewrite Hr.
    split; [reflexivity|]. rewrite <- app_assoc in Hp'. exact Hp'.
Qed.

End Plain.
End PrefetcherSequences.

(** X5: a [PrefetchGenerator] can be drained once only.  Over a queue-backed
    loader with batches [xs], none of them [None], and any capacity, the first
    [length xs] calls of [CPUPrefetcher.next] return the batches, the next
    one returns [None], and one more never returns.  Under every interleaving
    at most [length xs + 1] calls of [__next__] return, and after them none
    can. *)
Theorem prefetch_generator_is_single_use (A : Type) (xs : list A)
    (capacity : Z) :
  let loader := PrefetchDataLoader.mkLoader capacity (map Some xs) in
  (exists p,
      CPUPrefetcher.nexts (S (List.length xs)) (CPUPrefetcher.init loader) =
        Some (map Some xs ++ [None], p) /\
      CPUPrefetcher.next p = None) /\
  (forall rs s',
      calls (Py.py_iter loader) rs s' ->
      (List.length rs <= S (List.length xs))%nat /\
      (List.length rs = S (List.length xs) ->
         rs = map Return xs ++ [Stop] /\
         forall r s'', ~ next_call s' r s'')).
Proof.
  intros loader. split.
  - destruct (PrefetcherSequences.cpu_nexts_stream (map Some xs ++ [None])
                (CPUPrefetcher.init loader) []) as (p & Hn & Hs).
    { rewrite app_nil_r. reflexivity. }
    rewrite length_app, length_map, Nat.add_1_r in Hn.
    exists p. split; [exact Hn|].
    pose proof (QueueBackedFacts.cpu_next_stream p) as Hb. rewrite Hs in Hb. exact Hb.
  - intros rs s' Hc. apply PrefetchGeneratorFacts.stream_calls in Hc.
    change (stream (Py.py_iter loader)) with (map Some xs ++ [@None A]) in Hc.
    assert (List.length (map item_of rs ++ stream s') = S (List.length xs)) as Hl.
    { rewrite <- Hc, length_app, length_map. cbn. lia. }
    rewrite length_app, length_map in Hl. split; [lia|].
    intros Hr. assert (stream s' = []) as Hnil
      by (destruct (stream s'); [reflexivity|cbn in Hl; lia]).
    rewrite Hnil, app_nil_r in Hc. split.
    + apply WorkerFacts.item_of_injective. rewrite <- Hc, map_app, map_map.
      reflexivity.
    + intros r s'' Hn. apply NextFacts.next_call_needs_item in Hn. contradiction.
Qed.

(** X6: over a queue-backed loader a [CUDAPrefetcher] hands out every batch,
    moved to the device, and then the call of [next] that should report the
    end never returns: its [preload] waits on the queue that the finished
    worker has left empty. *)
Theorem cuda_over_queue_backed_loader_blocks (A : Type) (xs : list A)
    (capacity : Z) (dev : A -> A) :
  exists p0 p',
    CUDAPrefetcher.init (PrefetchDataLoader.mkLoader capacity (map Some xs)) dev
      = Some p0 /\
    CUDAPrefetcher.nexts (List.length xs) p0 =
      Some (map (fun x => Some (dev x)) xs, p') /\
    CUDAPrefetcher.next p' = None.
Proof.
  set (loader := PrefetchDataLoader.mkLoader capacity (map Some xs)).
  set (q := CUDAPrefetcher.mk None loader dev (Py.py_iter loader)).
  pose proof (QueueBackedFacts.cuda_preload_stream q) as Hp.
  change (stream (CUDAPrefetcher.data q)) with (map Some xs ++ [@None A]) in Hp.
  destruct xs as [|x xs].
  - cbn [map app] in Hp. destruct Hp as (p0 & Hi & Hs & Hb & Hd).
    exists p0, p0. split; [exact Hi|]. split; [reflexivity|].
    unfold CUDAPrefetcher.next.
    pose proof (QueueBackedFacts.cuda_preload_stream p0) as H1.
    rewrite Hs in H1. rewrite H1. reflexivity.
  - cbn [map app] in Hp. destruct Hp as (p0 & Hi & Hs & Hb & Hd).
    cbn in Hb, Hd.
    destruct (QueueBackedFacts.cuda_over_queue_blocks_at_end xs p0 (dev x) Hb Hs)
      as (p' & Hn & _ & Hk).
    exists p0, p'. split; [exact Hi|]. rewrite Hd in Hn.
    split; [exact Hn|exact Hk].
Qed.

(** X7: over a [DataLoader] a [CPUPrefetcher] returns the batches in order
    and then [None] at every further call, however many there are. *)
Theorem cpu_prefetcher_none_after_end (B : Type) (dl : DataLoader.t B)
    (k : nat) :
  CPUPrefetcher.nexts (DataLoader.len dl + k) (CPUPrefetcher.init dl) =
  Some (map Some dl ++ repeat None k, CPUPrefetcher.mk dl []).
Proof. apply PrefetcherSequences.cpu_nexts_list. Qed.

(** X8: over a [DataLoader] a [CUDAPrefetcher] returns every batch of the
    loader once, in order and moved to the device, and then [None] at every
    further call; an empty loader gives [None] from the first call on. *)
Theorem cuda_prefetcher_returns_each_batch_once (B : Type)
    (dl : DataLoader.t B) (dev : B -> B) (k : nat) :
  exists p0 p',
    CUDAPrefetcher.init dl dev = Some p0 /\
    CUDAPrefetcher.nexts (DataLoader.len dl + k) p0 =
      Some (map (fun b => Some (dev b)) dl ++ repeat None k, p') /\
    CUDAPrefetcher.batch_data p' = None.
Proof.
  destruct (PrefetcherFacts.init_holds dl dev) as (p0 & Hi & Hp0).
  destruct (PrefetcherSequences.cuda_nexts_holds dl dev dl k _ _ Hp0)
    as (p' & Hn & Hp').
  exists p0, p'. repeat split; try assumption. apply Hp'.
Qed.

(** X9: [reset] restarts from the first batch wherever the prefetcher
    stands: after any number of [next] calls on a [CPUPrefetcher], and after
    any sequence of [next] and [reset] calls on a [CUDAPrefetcher], a [reset]
    followed by a drain gives all the batches of the loader in order. *)
Theorem reset_restarts_from_any_position (B : Type) (dl : DataLoader.t B)
    (dev : B -> B) (n : nat) (cs : list CUDAPrefetcher.call) :
  (exists rs p p2,
      CPUPrefetcher.nexts n (CPUPrefetcher.init dl) = Some (rs, p) /\
      CPUPrefetcher.drain (S (DataLoader.len dl)) (CPUPrefetcher.reset p) =
        Some (dl, p2)) /\
  (exists p0 tr p p1 p2,
      CUDAPrefetcher.init dl dev = Some p0 /\
      CUDAPrefetcher.run p0 cs = Some (tr, p) /\
      CUDAPrefetcher.reset p = Some p1 /\
      CUDAPrefetcher.drain (S (DataLoader.len dl)) p1 = Some (map dev dl, p2)).
Proof.
  split.
  - destruct (PrefetcherSequences.cpu_nexts_data n (CPUPrefetcher.init dl))
      as (rs & p & Hn & Ho).
    exists rs, p, (CPUPrefetcher.mk dl []). split; [exact Hn|].
    unfold CPUPrefetcher.reset. rewrite Ho. cbn.
    apply PrefetcherFacts.cpu_drain_list.
  - destruct (PrefetcherFacts.init_holds dl dev) as (p0 & Hi & Hp0).
    destruct (PrefetcherFacts.run_holds dl dev cs _ _ _ Hp0)
      as (tr & p & handed & u & Hr & Hp & _).
    destruct (PrefetcherFacts.reset_holds dl dev _ _ _ Hp) as (p1 & Hre & Hp1).
    destruct (PrefetcherFacts.drain_holds dl dev dl _ _ Hp1) as (p2 & Hd & _).
    exists p0, tr, p, p1, p2. repeat split; assumption.
Qed.

(* ===================================================================== *)
(** * Further properties: the datasets *)
(* ===================================================================== *)

Module IndexFacts.
Section Facts.
Context {X : Type}.

Lemma index_in_range (l : list X) (i : Z) :
  - Z.of_nat (List.length l) <= i < Z.of_nat (List.length l) ->
  exists x, PyList.index l i = inr x.
Proof.
  intros Hi. unfold PyList.index.
  set (n := Z.of_nat (List.length l)) in *.
  set (j := if i <? 0 then n + i else i).
  assert (0 <= j < n) as Hj.
  { subst j. destruct (i <? 0) eqn:E;
      [apply Z.ltb_lt in E | apply Z.ltb_ge in E]; lia. }
  assert (((0 <=? j) && (j <? n)) = true) as ->.
  { apply andb_true_intro. split; [apply Z.leb_le | apply Z.ltb_lt]; lia. }
  destruct (nth_error l (Z.to_nat j)) as [x|] eqn:E; [eauto|].
  apply nth_error_None in E. lia.
Qed.

Lemma index_out_of_range (l : list X) (i : Z) :
  i < - Z.of_nat (List.length l) \/ Z.of_nat (List.length l) <= i ->
  PyList.index l i = inl Exn.IndexError.
Proof.
  intros Hi. unfold PyList.index.
  set (n := Z.of_nat (List.length l)) in *.
  set (j := if i <? 0 then n + i else i).
  assert (j < 0 \/ n <= j) as Hj.
  { subst j. destruct (i <? 0) eqn:E;
      [apply Z.ltb_lt in E | apply Z.ltb_ge in E]; lia. }
  assert (((0 <=? j) && (j <? n)) = false) as ->.
  { apply andb_false_iff. destruct Hj;
      [left; apply Z.leb_gt | right; apply Z.ltb_ge]; lia. }
  reflexivity.
Qed.

End Facts.
End IndexFacts.

Module ConstructionFacts.
Section Facts.
Context {rng image tensor : Type} {ip : Imgproc rng image tensor}
        {fs : Files image}.

(** A loop of [read_image_to_memory] that ends has decoded every file and
    appended one image for each to what was there. *)
Lemma read_y_images_ok (names : list string) :
  forall (acc l : list image) (w w' : Eff.world rng image),
  TrainValidImageDataset.read_y_images names acc w = (inr l, w') ->
  List.length l = (List.length acc + List.length names)%nat /\
  (forall name, In name names -> imread name <> None).
Proof.
  induction names as [|name names IH]; intros acc l w w' E.
  - cbn in E. injection E as <- _. split; [cbn; lia|]. intros ? [].
  - cbn [TrainValidImageDataset.read_y_images] in E.
    unfold Eff.bind, Eff.lift in E.
    destruct (imread name) as [raw|] eqn:Hr; [|discriminate].
    destruct (bgr2ycbcr (unit_float raw) true w) as [[e|y] w1]; [discriminate|].
    apply IH in E as [Hl Hall]. split.
    + rewrite Hl, length_app. cbn. lia.
    + intros n' [<-|Hin]; [congruence|apply Hall; assumption].
Qed.

(** The loop of [TestImageDataset.read_image_to_memory], when it ends. *)
Lemma read_images_ok (names : list string) :
  forall (self self' : TestImageDataset.t tensor) (w w' : Eff.world rng image),
  TestImageDataset.read_images self names w = (inr self', w') ->
  TestImageDataset.image_file_names self' = TestImageDataset.image_file_names self /\
  TestImageDataset.upscale_factor self' = TestImageDataset.upscale_factor self /\
  List.length (TestImageDataset.lr_datasets self') =
    (List.length (TestImageDataset.lr_datasets self) + List.length names)%nat /\
  List.length (TestImageDataset.hr_datasets self') =
    (List.length (TestImageDataset.hr_datasets self) + List.length names)%nat /\
  (forall name, In name names -> imread name <> None) /\
  (names <> [] -> TestImageDataset.upscale_factor self <> 0).
Proof.
  induction names as [|name names IH]; intros self self' w w' E.
  - cbn in E. injection E as <- _.
    split; [reflexivity|]. split; [reflexivity|].
    split; [cbn; lia|]. split; [cbn; lia|].
    split; [intros ? []|congruence].
  - cbn [TestImageDataset.read_images] in E.
    unfold Eff.bind at 1 in E.
    destruct (TestImageDataset.read_one self name w) as [[e|self1] w1] eqn:E1;
      [discriminate|].
    unfold TestImageDataset.read_one, Eff.bind, Eff.lift, Eff.ret in E1.
    destruct (imread name) as [raw|] eqn:Hr; [|discriminate].
    unfold TestImageDataset.one_over in E1.
    destruct (TestImageDataset.upscale_factor self =? 0) eqn:Hz; [discriminate|].
    destruct (imresize _ _ w) as [[?|lr1] w2]; [discriminate|].
    destruct (imresize lr1 _ w2) as [[?|lr2] w3]; [discriminate|].
    destruct (bgr2ycbcr lr2 true w3) as [[?|lry] w4]; [discriminate|].
    destruct (bgr2ycbcr _ true w4) as [[?|hry] w5]; [discriminate|].
    destruct (image2tensor lry false false w5) as [[?|lrt] w6]; [discriminate|].
    destruct (image2tensor hry false false w6) as [[?|hrt] w7]; [discriminate|].
    injection E1 as <- _.
    apply IH in E as (Hn & Hu & Hl & Hh & Hall & _). cbn in Hn, Hu, Hl, Hh.
    rewrite length_app in Hl, Hh. cbn in Hl, Hh.
    split; [assumption|]. split; [assumption|].
    split; [cbn [List.length]; lia|]. split; [cbn [List.length]; lia|].
    split.
    + intros n' [<-|Hin]; [congruence|apply Hall; assumption].
    + intros _. apply Z.eqb_neq. assumption.
Qed.

End Facts.
End ConstructionFacts.

(** X10: a [TrainValidImageDataset] whose construction succeeds holds one
    decoded image for every file listed under [lr] and one for every file
    listed under [hr], so that [len] is the number of low-resolution images
    held; every listed file could be decoded (one that cannot aborts the
    construction); the crop size and the mode are stored as given, the mode
    unchecked. *)
Theorem train_valid_init_loads_every_file (rng image tensor : Type)
    (ip : Imgproc rng image tensor) (fs : Files image)
    (image_dir : string) (image_size : Z) (mode : string)
    (self : TrainValidImageDataset.t image) (w w' : Eff.world rng image) :
  TrainValidImageDataset.init image_dir image_size mode w = (inr self, w') ->
  List.length (TrainValidImageDataset.lr_datasets self) =
    List.length (TrainValidImageDataset.lr_image_file_names self) /\
  List.length (TrainValidImageDataset.hr_datasets self) =
    List.length (TrainValidImageDataset.hr_image_file_names self) /\
  TrainValidImageDataset.len self =
    List.length (TrainValidImageDataset.lr_datasets self) /\
  (forall name,
     In name (TrainValidImageDataset.lr_image_file_names self ++
              TrainValidImageDataset.hr_image_file_names self) ->
     imread name <> None) /\
  TrainValidImageDataset.image_size self = image_size /\
  TrainValidImageDataset.mode self = mode.
Proof.
  unfold TrainValidImageDataset.init, Eff.bind at 1, Eff.lift.
  destruct (listdir (PyList.path_join image_dir "lr")) as [lrn|]; [|discriminate].
  unfold Eff.bind at 1.
  destruct (listdir (PyList.path_join image_dir "hr")) as [hrn|]; [|discriminate].
  unfold TrainValidImageDataset.read_image_to_memory, Eff.bind, Eff.ret.
  cbn [TrainValidImageDataset.lr_image_file_names
       TrainValidImageDataset.hr_image_file_names
       TrainValidImageDataset.lr_datasets TrainValidImageDataset.hr_datasets
       TrainValidImageDataset.image_size TrainValidImageDataset.mode].
  destruct (TrainValidImageDataset.read_y_images _ [] w) as [[e|lrs] w1] eqn:E1;
    [discriminate|].
  destruct (TrainValidImageDataset.read_y_images _ [] w1) as [[e|hrs] w2] eqn:E2;
    [discriminate|].
  intros E. injection E as <- _.
  apply ConstructionFacts.read_y_images_ok in E1 as [L1 A1].
  apply ConstructionFacts.read_y_images_ok in E2 as [L2 A2].
  unfold TrainValidImageDataset.len. cbn in *.
  repeat split; try assumption; try lia.
  intros name Hin. apply in_app_or in Hin as [Hin|Hin]; auto.
Qed.

Lemma train_valid_init_loads_every_file_witness :
  let self := Examples.uneven_train_set in
  List.length (TrainValidImageDataset.lr_datasets self) =
    List.length (TrainValidImageDataset.lr_image_file_names self) /\
  List.length (TrainValidImageDataset.hr_datasets self) =
    List.length (TrainValidImageDataset.hr_image_file_names self) /\
  TrainValidImageDataset.len self =
    List.length (TrainValidImageDataset.lr_datasets self) /\
  (forall name,
     In name (TrainValidImageDataset.lr_image_file_names self ++
              TrainValidImageDataset.hr_image_file_names self) ->
     @imread _ (ShapeModel.files Examples.uneven_train) name <> None) /\
  TrainValidImageDataset.image_size self = 41 /\
  TrainValidImageDataset.mode self = "Train"%string.
Proof.
  apply (train_valid_init_loads_every_file _ _ _ ShapeModel.matlab
           (ShapeModel.files Examples.uneven_train)
           "data/TB291/train" 41 "Train" Examples.uneven_train_set
           Examples.world0 Examples.world0).
  reflexivity.
Defined.

(** X11: [len] counts the files under [lr] alone.  When the directory lists
    fewer files under [hr], construction still succeeds, and fetching the
    last sample, at index [len - 1], raises [IndexError] from the list of
    high-resolution images, in any mode and before any augmentation. *)
Theorem getitem_fails_when_hr_files_are_missing (rng image tensor : Type)
    (ip : Imgproc rng image tensor) (fs : Files image)
    (image_dir : string) (image_size : Z) (mode : string)
    (self : TrainValidImageDataset.t image) (w w' w2 : Eff.world rng image) :
  TrainValidImageDataset.init image_dir image_size mode w = (inr self, w') ->
  (List.length (TrainValidImageDataset.hr_image_file_names self) <
   List.length (TrainValidImageDataset.lr_image_file_names self))%nat ->
  TrainValidImageDataset.getitem self
    (Z.of_nat (TrainValidImageDataset.len self) - 1) w2 =
  (inl Exn.IndexError, w2).
Proof.
  intros Hi Hlt.
  destruct (train_valid_init_loads_every_file _ _ _ _ _ _ _ _ _ _ _ Hi)
    as (L1 & L2 & Hlen & _).
  unfold TrainValidImageDataset.getitem, Eff.bind at 1, Eff.lift.
  destruct (IndexFacts.index_in_range (TrainValidImageDataset.lr_datasets self)
              (Z.of_nat (TrainValidImageDataset.len self) - 1)) as [x ->].
  { rewrite Hlen. lia. }
  unfold Eff.bind at 1.
  rewrite IndexFacts.index_out_of_range; [reflexivity|].
  right. rewrite L2, Hlen, L1. lia.
Qed.

Lemma getitem_fails_when_hr_files_are_missing_witness :
  @TrainValidImageDataset.getitem _ _ _ ShapeModel.matlab
      Examples.uneven_train_set
      (Z.of_nat (TrainValidImageDataset.len Examples.uneven_train_set) - 1)
      Examples.world0 =
  (inl Exn.IndexError, Examples.world0).
Proof.
  apply (getitem_fails_when_hr_files_are_missing _ _ _ ShapeModel.matlab
           (ShapeModel.files Examples.uneven_train)
           "data/TB291/train" 41 "Train" Examples.uneven_train_set
           Examples.world0 Examples.world0 Examples.world0).
  - reflexivity.
  - cbn. lia.
Defined.

(** X12: a dataset whose mode is neither [Train] nor [Valid] never returns a
    sample.  With as many low as high resolution images, [__getitem__] raises
    [ValueError] at every index in range and [IndexError] at every other
    index, the index being looked up first; no image is processed, no random
    number is drawn and nothing is printed. *)
Theorem getitem_rejects_unsupported_mode (rng image tensor : Type)
    (ip : Imgproc rng image tensor) (self : TrainValidImageDataset.t image)
    (batch_index : Z) (w : Eff.world rng image) :
  TrainValidImageDataset.mode self <> "Train"%string ->
  TrainValidImageDataset.mode self <> "Valid"%string ->
  List.length (TrainValidImageDataset.hr_datasets self) =
    List.length (TrainValidImageDataset.lr_datasets self) ->
  let n := Z.of_nat (List.length (TrainValidImageDataset.lr_datasets self)) in
  (- n <= batch_index < n ->
     TrainValidImageDataset.getitem self batch_index w =
     (inl (Exn.ValueError
        "Unsupported data processing model, please use `Train` or `Valid`."), w)) /\
  (batch_index < - n \/ n <= batch_index ->
     TrainValidImageDataset.getitem self batch_index w = (inl Exn.IndexError, w)).
Proof.
  intros Ht Hv Hl n. split; intros Hi.
  - unfold TrainValidImageDataset.getitem, Eff.bind at 1, Eff.lift.
    destruct (IndexFacts.index_in_range (TrainValidImageDataset.lr_datasets self)
                batch_index Hi) as [x ->].
    unfold Eff.bind at 1.
    destruct (IndexFacts.index_in_range (TrainValidImageDataset.hr_datasets self)
                batch_index) as [y ->]; [rewrite Hl; exact Hi|].
    apply String.eqb_neq in Ht, Hv. rewrite Ht, Hv. reflexivity.
  - unfold TrainValidImageDataset.getitem, Eff.bind at 1, Eff.lift.
    rewrite IndexFacts.index_out_of_range by exact Hi. reflexivity.
Qed.

Lemma getitem_rejects_unsupported_mode_witness :
  let self := TrainValidImageDataset.mk [] [] 41 "train" [(41, 41)] [(41, 41)] in
  @TrainValidImageDataset.getitem _ _ _ ShapeModel.matlab self 0 Examples.world0 =
    (inl (Exn.ValueError
       "Unsupported data processing model, please use `Train` or `Valid`."),
     Examples.world0) /\
  @TrainValidImageDataset.getitem _ _ _ ShapeModel.matlab self 1 Examples.world0 =
    (inl Exn.IndexError, Examples.world0).
Proof.
  intros self. split.
  - destruct (getitem_rejects_unsupported_mode _ _ _ ShapeModel.matlab
                self 0 Examples.world0) as [H _];
      [discriminate | discriminate | reflexivity |].
    apply H. cbn. lia.
  - destruct (getitem_rejects_unsupported_mode _ _ _ ShapeModel.matlab
                self 1 Examples.world0) as [_ H];
      [discriminate | discriminate | reflexivity |].
    apply H. cbn. lia.
Defined.

(** X13: a [TestImageDataset] whose construction succeeds holds one
    low-resolution and one high-resolution tensor for every file of the
    directory, so that [len] is the number of samples held; its file names
    are those of the directory listing, joined to the directory; every file
    could be decoded; and if the directory is not empty the scale factor is
    not 0. *)
Theorem test_init_loads_every_file (rng image tensor : Type)
    (ip : Imgproc rng image tensor) (fs : Files image)
    (test_image_dir : string) (upscale_factor : Z)
    (self : TestImageDataset.t tensor) (w w' : Eff.world rng image) :
  TestImageDataset.init test_image_dir upscale_factor w = (inr self, w') ->
  TestImageDataset.upscale_factor self = upscale_factor /\
  List.length (TestImageDataset.lr_datasets self) = TestImageDataset.len self /\
  List.length (TestImageDataset.hr_datasets self) = TestImageDataset.len self /\
  (exists names,
     listdir test_image_dir = Some names /\
     TestImageDataset.image_file_names self =
       map (PyList.path_join test_image_dir) names) /\
  (forall name,
     In name (TestImageDataset.image_file_names self) -> imread name <> None) /\
  (TestImageDataset.image_file_names self <> [] -> upscale_factor <> 0).
Proof.
  unfold TestImageDataset.init, Eff.bind at 1, Eff.lift.
  destruct (listdir test_image_dir) as [names|]; [|discriminate].
  unfold TestImageDataset.read_image_to_memory.
  cbn [TestImageDataset.image_file_names].
  intros E. apply ConstructionFacts.read_images_ok in E
    as (Hn & Hu & Hl & Hh & Hall & Hz).
  cbn in Hn, Hu, Hl, Hh, Hz. unfold TestImageDataset.len. rewrite Hn.
  split; [assumption|]. split; [assumption|]. split; [assumption|].
  split; [exists names; split; reflexivity|].
  split; assumption.
Qed.

Lemma test_init_loads_every_file_witness :
  let self := Examples.baby_set in
  TestImageDataset.upscale_factor self = 2 /\
  List.length (TestImageDataset.lr_datasets self) = TestImageDataset.len self /\
  List.length (TestImageDataset.hr_datasets self) = TestImageDataset.len self /\
  (exists names,
     @listdir _ (ShapeModel.files (Examples.one_image 64 64)) "data/Set5/GTmod12"
       = Some names /\
     TestImageDataset.image_file_names self =
       map (PyList.path_join "data/Set5/GTmod12") names) /\
  (forall name,
     In name (TestImageDataset.image_file_names self) ->
     @imread _ (ShapeModel.files (Examples.one_image 64 64)) name <> None) /\
  (TestImageDataset.image_file_names self <> [] -> 2 <> 0).
Proof.
  apply (test_init_loads_every_file _ _ _ ShapeModel.matlab
           (ShapeModel.files (Examples.one_image 64 64))
           "data/Set5/GTmod12" 2 Examples.baby_set
           Examples.world0 Examples.world0).
  reflexivity.
Defined.

(** X14: on a [TestImageDataset] whose construction succeeded,
    [__getitem__] returns a sample at every index from [-len] to [len - 1],
    negative indices counting from the end, and raises [IndexError] at every
    other index. *)
Theorem test_getitem_succeeds_exactly_in_range (rng image tensor : Type)
    (ip : Imgproc rng image tensor) (fs : Files image)
    (test_image_dir : string) (upscale_factor : Z)
    (self : TestImageDataset.t tensor) (w w' : Eff.world rng image)
    (batch_index : Z) :
  TestImageDataset.init test_image_dir upscale_factor w = (inr self, w') ->
  let n := Z.of_nat (TestImageDataset.len self) in
  (- n <= batch_index < n ->
     exists smp, TestImageDataset.getitem self batch_index = inr smp) /\
  (batch_index < - n \/ n <= batch_index ->
     TestImageDataset.getitem self batch_index = inl Exn.IndexError).
Proof.
  intros Hi n.
  destruct (test_init_loads_every_file _ _ _ _ _ _ _ _ _ _ Hi)
    as (_ & Hl & Hh & _).
  unfold TestImageDataset.getitem. split; intros Hr.
  - destruct (IndexFacts.index_in_range (TestImageDataset.lr_datasets self)
                batch_index) as [x ->]; [rewrite Hl; exact Hr|].
    destruct (IndexFacts.index_in_range (TestImageDataset.hr_datasets self)
                batch_index) as [y ->]; [rewrite Hh; exact Hr|].
    eexists; reflexivity.
  - rewrite IndexFacts.index_out_of_range by (rewrite Hl; exact Hr).
    reflexivity.
Qed.

Lemma test_getitem_succeeds_exactly_in_range_witness :
  (exists smp, TestImageDataset.getitem Examples.baby_set (-1) = inr smp) /\
  TestImageDataset.getitem Examples.baby_set 1 = inl Exn.IndexError.
Proof.
  split.
  - destruct (test_getitem_succeeds_exactly_in_range _ _ _ ShapeModel.matlab
                (ShapeModel.files (Examples.one_image 64 64))
                "data/Set5/GTmod12" 2 Examples.baby_set
                Examples.world0 Examples.world0 (-1)) as [H _]; [reflexivity|].
    apply H. cbn. lia.
  - destruct (test_getitem_succeeds_exactly_in_range _ _ _ ShapeModel.matlab
                (ShapeModel.files (Examples.one_image 64 64))
                "data/Set5/GTmod12" 2 Examples.baby_set
                Examples.world0 Examples.world0 1) as [_ H]; [reflexivity|].
    apply H. cbn. lia.
Defined.

(* ===================================================================== *)
(** * Further properties: the end of a drain *)
(* ===================================================================== *)

Lemma prefetch_generator_is_single_use_witness :
  [Return 1%nat; Stop] = map Return [1%nat] ++ [Stop] /\
  forall (r : next_result nat) s'',
    ~ next_call (mkGen [] RunDone (mkQueue 1 [])) r s''.
Proof.
  destruct (prefetch_generator_is_single_use nat [1%nat] 1) as [_ H].
  destruct (H [Return 1%nat; Stop] (mkGen [] RunDone (mkQueue 1 []))) as [_ H2].
  - eapply calls_cons.
    + eapply next_wait; [reflexivity|].
      eapply next_wait; [reflexivity|].
      apply next_now. reflexivity.
    + eapply calls_cons; [|apply calls_nil].
      eapply next_wait; [reflexivity|].
      eapply next_wait; [reflexivity|].
      apply next_now. reflexivity.
  - apply H2. reflexivity.
Defined.

(** X15: when the consumer of an input without [None] sees the end, under
    any interleaving and with any capacity, the worker thread has finished
    and the queue is empty: nothing is left behind. *)
Theorem drain_end_leaves_nothing_behind (A : Type) (xs : list A)
    (capacity : Z) (n : nat) (d : drain A) :
  steps n (start (map Some xs) capacity) d ->
  stopped d = true ->
  pc (sys d) = RunDone /\ items (queue (sys d)) = [] /\ out d = xs.
Proof.
  intros Hst Hs.
  destruct (PrefetchGeneratorFacts.drain_invariant _ _ _ _ Hst) as (_ & Ho & _).
  specialize (Ho Hs). rewrite PrefetchGeneratorFacts.none_free_prefix_some in Ho.
  pose proof (PrefetchGeneratorFacts.steps_conserve _ _ _ Hst) as Hc.
  change (consumed (start (map Some xs) capacity)
          ++ stream (sys (start (map Some xs) capacity)))
    with (map Some xs ++ [@None A]) in Hc.
  unfold consumed in Hc. rewrite Hs, Ho in Hc.
  rewrite <- (app_nil_r (map Some xs ++ [None])) in Hc at 2.
  apply app_inv_head in Hc. unfold stream in Hc.
  apply app_eq_nil in Hc as [Hq Hp].
  split; [|split; assumption].
  destruct (pc (sys d)); try reflexivity; try discriminate.
  destruct (generator (sys d)); discriminate.
Qed.

Lemma drain_end_leaves_nothing_behind_witness :
  let d := mkDrain (mkGen [] RunDone (mkQueue 1 [])) [7%nat; 8%nat] true in
  pc (sys d) = RunDone /\ items (queue (sys d)) = [] /\ out d = [7%nat; 8%nat].
Proof.
  apply (drain_end_leaves_nothing_behind nat [7%nat; 8%nat] 1 9).
  - worker_acts. worker_acts. worker_acts. consumer_acts. worker_acts.
    consumer_acts. worker_acts. worker_acts. consumer_acts.
    apply steps_refl.
  - reflexivity.
Defined.

(* ===================================================================== *)
(** * The Python primitives on known values *)
(* ===================================================================== *)

(** [os.path.join] on the four cases of [posixpath.join]. *)
Example path_join_cases :
  PyList.path_join "data/Set5/GTmod12" "baby.png" = "data/Set5/GTmod12/baby.png"%string /\
  PyList.path_join "data/Set5/GTmod12/" "baby.png" = "data/Set5/GTmod12/baby.png"%string /\
  PyList.path_join "" "baby.png" = "baby.png"%string /\
  PyList.path_join "data" "/tmp/baby.png" = "/tmp/baby.png"%string.
Proof. repeat split. Qed.

(** [1 / 3] and [1 / 5] are the doubles [0x3FD5555555555555] and
    [0x3FC999999999999A]; [1 / 2] is exact; the sign is kept. *)
Example float_inverse_cases :
  TestImageDataset.float_inverse 3 = (6004799503160661 # (2 ^ 54))%Q /\
  TestImageDataset.float_inverse 5 = (7205759403792794 # (2 ^ 55))%Q /\
  (TestImageDataset.float_inverse 2 == 1 # 2)%Q /\
  (TestImageDataset.float_inverse (-2) == - (1 # 2))%Q /\
  ~ (TestImageDataset.float_inverse 3 == 1 # 3)%Q.
Proof.
  split; [vm_compute; reflexivity|]. split; [vm_compute; reflexivity|].
  split; [vm_compute; reflexivity|]. split; [vm_compute; reflexivity|].
  unfold Qeq. vm_compute. discriminate.
Qed.
